(** * igusd1: frame codec and drive controller of the igus dryve D1 client

    A shallow embedding of [src/igusd1.py].  Python integers are [Z], a
    [bytes]/[bytearray] value is a [list Z] whose entries the constructors
    below keep within 0..255, strings are [string].  Code that can raise
    returns [except]; methods of the class [D1], which talk to a socket,
    sleep and print, live in a state-and-exception monad over [world]. *)

From Stdlib Require Import ZArith List Bool String Ascii Lia QArith.
Import ListNotations.
Local Open Scope string_scope.
Local Open Scope list_scope.
Local Open Scope Z_scope.

(** ** Python values and exceptions *)

Module Py.

(** The exceptions the modelled statements can raise.  [StructError] is
    [struct.error]; [OSError] stands for the socket layer's own errors. *)
Inductive exn : Type :=
| ValueError
| IndexError
| OverflowError
| StructError
| KeyError (key : string)
| UnboundLocalError
| AttributeError
| OSError.

(** Result of evaluating an expression without side effects. *)
Inductive except (A : Type) : Type :=
| Val (a : A)
| Exc (e : exn).
Arguments Val {A} a.
Arguments Exc {A} e.

Definition ebind {A B} (x : except A) (k : A -> except B) : except B :=
  match x with
  | Val a => k a
  | Exc e => Exc e
  end.

(** What a method hands back to its caller, and what [print] shows. *)
Inductive value : Type :=
| VNone
| VInts (l : list Z)
| VStr (s : string).

Definition is_byte (x : Z) : bool := (0 <=? x) && (x <? 256).

(** [bytes == bytearray] compares contents. *)
Fixpoint bytes_eqb (a b : list Z) : bool :=
  match a, b with
  | [], [] => true
  | x :: a', y :: b' => (x =? y) && bytes_eqb a' b'
  | _, _ => false
  end.

(** [bytearray(l)]: every entry must be in [range(0, 256)]. *)
Definition bytearray (l : list Z) : except (list Z) :=
  if forallb is_byte l then Val l else Exc ValueError.

(** [a[i] = v] on a bytearray. *)
Definition setitem (a : list Z) (i : nat) (v : Z) : except (list Z) :=
  if (i <? List.length a)%nat then
    if is_byte v then Val (firstn i a ++ v :: skipn (S i) a)
    else Exc ValueError
  else Exc IndexError.

(** Little-endian digits, least significant first. *)
Fixpoint le_bytes (n : nat) (v : Z) : list Z :=
  match n with
  | O => []
  | S k => v mod 256 :: le_bytes k (v / 256)
  end.

Fixpoint from_le (l : list Z) : Z :=
  match l with
  | [] => 0
  | b :: t => b + 256 * from_le t
  end.

(** [v.to_bytes(n, "little")]: unsigned, so a negative [v] and a [v] that
    needs more than [n] bytes raise [OverflowError]. *)
Definition to_bytes (v : Z) (n : nat) : except (list Z) :=
  if (v <? 0) || (256 ^ Z.of_nat n <=? v) then Exc OverflowError
  else Val (le_bytes n v).

Definition signed32 (u : Z) : Z := if u <? 2 ^ 31 then u else u - 2 ^ 32.

(** [struct.unpack("<" + "x"*pad + "i", buf)[0]]: the buffer must have
    exactly [pad + 4] bytes; the last four are a signed little-endian int. *)
Definition unpack_pad_i (pad : nat) (buf : list Z) : except Z :=
  if (List.length buf =? pad + 4)%nat then Val (signed32 (from_le (skipn pad buf)))
  else Exc StructError.

End Py.
Export Py.

Notation "x <-- e ;;; k" := (ebind e (fun x => k))
  (at level 61, e at next level, right associativity).

(** ** Frame codec *)

(** The default of [temp_data]. *)
Definition temp_data_default : list Z := [-1; -1; -1; -1].

Definition header (read_write : Z) (obj_ind : list Z) (sub_ind data_len : Z)
  : list Z :=
  [0; 0;
   0; 0; 0;
   0;
   0; 43; 13;
   read_write;
   0; 0]
  ++ obj_ind ++
  [sub_ind;
   0; 0; 0;
   data_len].

Definition make_bytearray (read_write : Z) (obj_ind : list Z)
  (sub_ind data_len : Z) (temp_data : list Z) : except (list Z) :=
  let data := filter (fun i => negb (i =? -1)) temp_data in
  array <-- bytearray (header read_write obj_ind sub_ind data_len ++ data) ;;;
  setitem array 5 (Z.of_nat (List.length array) - 6).

Definition get_array (selector : string) : except (list Z) :=
  if String.eqb selector "status" then
    make_bytearray 0 [96; 65] 0 2 temp_data_default
  else if String.eqb selector "shutdown" then
    make_bytearray 1 [96; 64] 0 2 [6; 0]
  else if String.eqb selector "switch_on" then
    make_bytearray 1 [96; 64] 0 2 [7; 0]
  else if String.eqb selector "enable_operation" then
    make_bytearray 1 [96; 64] 0 2 [15; 0]
  else Exc UnboundLocalError.

(** ** The connection and the observable effects *)

(** What the stream holds for the coming socket calls, in order: bytes that
    arrive (an empty [Data] is the end of the stream: [recv] returns [b'']);
    an error already pending on the socket, which the next call - [send] or
    [recv] - raises; or a failure that strikes while [recv] waits, so that
    a [send] before it still goes through. *)
Inductive rx_event : Type :=
| Data (bs : list Z)
| Pending (e : exn)
| Failing (e : exn).

Record socket : Type := { connected : bool; stream : list rx_event }.

Inductive action : Type :=
| Sent (frame : list Z)
| Slept (seconds : Q)
| Printed (v : value).

(** [sock] is the attribute [self.sock] ([None] while it was never assigned);
    [trace] lists what the driver did to the outside, oldest first. *)
Record world : Type := { sock : option socket; trace : list action }.

Definition with_stream (w : world) (st : list rx_event) : world :=
  {| sock := Some {| connected := true; stream := st |}; trace := trace w |}.

Definition emit (a : action) (w : world) : world :=
  {| sock := sock w; trace := trace w ++ [a] |}.

(** Outcome of running a method: it returns, raises, never comes back from a
    [recv] on a silent peer, or the loop budget of the model ran out. *)
Inductive result (A : Type) : Type :=
| Ret (a : A) (w : world)
| Raise (e : exn) (w : world)
| Blocked (w : world)
| OutOfFuel.
Arguments Ret {A} a w.
Arguments Raise {A} e w.
Arguments Blocked {A} w.
Arguments OutOfFuel {A}.

Definition M (A : Type) : Type := world -> result A.

Definition ret {A} (a : A) : M A := fun w => Ret a w.

Definition bind {A B} (m : M A) (k : A -> M B) : M B :=
  fun w =>
    match m w with
    | Ret a w' => k a w'
    | Raise e w' => Raise e w'
    | Blocked w' => Blocked w'
    | OutOfFuel => OutOfFuel
    end.

Definition lift {A} (x : except A) : M A :=
  fun w => match x with Val a => Ret a w | Exc e => Raise e w end.

Notation "x <- e ;; k" := (bind e (fun x => k))
  (at level 61, e at next level, right associativity).
Notation "e ;; k" := (bind e (fun _ => k))
  (at level 61, right associativity).

(** [print(v)]. *)
Definition print (v : value) : M unit := fun w => Ret tt (emit (Printed v) w).

(** [time.sleep(seconds)]: a negative length raises [ValueError]. *)
Definition sleep (seconds : Q) : M unit :=
  fun w =>
    if Qle_bool 0 seconds then Ret tt (emit (Slept seconds) w)
    else Raise ValueError w.

(** [while cond: body], unrolled at most [fuel] times. *)
Fixpoint while (fuel : nat) (cond : M bool) (body : M unit) : M unit :=
  match fuel with
  | O => fun _ => OutOfFuel
  | S n => b <- cond ;; if b then body ;; while n cond body else ret tt
  end.

(** [a and b] on conditions with effects: [b] runs only when [a] holds. *)
Definition and_then (a b : M bool) : M bool :=
  x <- a ;; if x then b else ret false.

(** [lhs != rhs], left operand first. *)
Definition differs (lhs : M (list Z)) (rhs : except (list Z)) : M bool :=
  l <- lhs ;; r <- lift rhs ;; ret (negb (bytes_eqb l r)).

(** [try: body / except: pass]. *)
Definition try_except_pass (body : M unit) : M unit :=
  fun w =>
    match body w with
    | Raise _ w' => Ret tt w'
    | r => r
    end.

(** *** The socket library *)

(** What the operating system answers: whether [socket.socket] fails, and
    for a host and port either the error [connect] raises or the stream of
    the peer that accepted. *)
Record os : Type := {
  socket_error : option exn;
  peer : string -> Z -> except (list rx_event)
}.

Definition socket_socket (env : os) : M socket :=
  fun w =>
    match socket_error env with
    | Some e => Raise e w
    | None => Ret {| connected := false; stream := [] |} w
    end.

Definition set_sock (s : socket) : M unit :=
  fun w => Ret tt {| sock := Some s; trace := trace w |}.

(** [self.sock]: an attribute that was never assigned raises. *)
Definition get_sock : M socket :=
  fun w =>
    match sock w with
    | Some s => Ret s w
    | None => Raise AttributeError w
    end.

Definition socket_connect (env : os) (ip_address : string) (port : Z) : M unit :=
  _ <- get_sock ;;
  fun w =>
    match peer env ip_address port with
    | Val st => Ret tt (with_stream w st)
    | Exc e => Raise e w
    end.

(** [sock.send(data)]: the whole of [data] is taken, unless the socket is
    not connected or an error is pending. *)
Definition socket_send (data : list Z) : M Z :=
  s <- get_sock ;;
  fun w =>
    if negb (connected s) then Raise OSError w
    else
      match stream s with
      | Pending e :: rest => Raise e (with_stream w rest)
      | _ => Ret (Z.of_nat (List.length data)) (emit (Sent data) w)
      end.

(** [sock.recv(bufsize)]: at most [bufsize] bytes of what has arrived; the
    rest stays queued. *)
Definition socket_recv (bufsize : nat) : M (list Z) :=
  s <- get_sock ;;
  fun w =>
    if negb (connected s) then Raise OSError w
    else
      match stream s with
      | [] => Blocked w
      | Pending e :: rest => Raise e (with_stream w rest)
      | Failing e :: rest => Raise e (with_stream w rest)
      | Data bs :: rest =>
          Ret (firstn bufsize bs)
              (with_stream w
                 (if (List.length bs <=? bufsize)%nat then rest
                  else Data (skipn bufsize bs) :: rest))
      end.

(** ** class D1 *)

Definition blank : world := {| sock := None; trace := [] |}.

Definition __init__ (env : os) (ip_address : string) (port : Z) : M unit :=
  try_except_pass (s <- socket_socket env ;; set_sock s) ;;
  try_except_pass (socket_connect env ip_address port).

(** The call [D1(ip_address, port)]. *)
Definition D1 (env : os) (ip_address : string) (port : Z) : result unit :=
  __init__ env ip_address port blank.

Definition send_command (data : list Z) : M (list Z) :=
  socket_send data ;;
  res <- socket_recv 24 ;;
  ret res.

(** [self.send_command(get_array("status"))]. *)
Definition poll_status : M (list Z) :=
  q <- lift (get_array "status") ;; send_command q.

Definition set_shutdown (fuel : nat) : M value :=
  f <- lift (get_array "shutdown") ;;
  send_command f ;;
  ba_1 <- lift (make_bytearray 0 [96; 65] 0 2 [33; 6]) ;;
  ba_2 <- lift (make_bytearray 0 [96; 65] 0 2 [33; 22]) ;;
  ba_3 <- lift (make_bytearray 0 [96; 65] 0 2 [33; 2]) ;;
  while fuel
    (and_then (differs poll_status (Val ba_1))
       (and_then (differs poll_status (Val ba_2))
          (differs poll_status (Val ba_3))))
    (print (VStr "Waiting for shutdown...") ;;
     sleep 1) ;;
  ret VNone.

Definition set_switch_on (fuel : nat) : M value :=
  f <- lift (get_array "switch_on") ;;
  send_command f ;;
  while fuel
    (and_then (differs poll_status (make_bytearray 0 [96; 65] 0 2 [35; 6]))
       (and_then (differs poll_status (make_bytearray 0 [96; 65] 0 2 [35; 22]))
          (differs poll_status (make_bytearray 0 [96; 65] 0 2 [35; 2]))))
    (print (VStr "Waiting for switch-on...") ;;
     sleep 1) ;;
  ret VNone.

Definition set_enable_operation (fuel : nat) : M value :=
  f <- lift (get_array "enable_operation") ;;
  send_command f ;;
  while fuel
    (and_then (differs poll_status (make_bytearray 0 [96; 65] 0 2 [39; 6]))
       (and_then (differs poll_status (make_bytearray 0 [96; 65] 0 2 [39; 22]))
          (differs poll_status (make_bytearray 0 [96; 65] 0 2 [39; 2]))))
    (print (VStr "Waiting for enabling operation...") ;;
     sleep 1) ;;
  ret VNone.

Definition init (fuel : nat) : M value :=
  set_shutdown fuel ;;
  set_switch_on fuel ;;
  set_enable_operation fuel ;;
  ret VNone.

(** [b[i]] on the four bytes [to_bytes] returned. *)
Definition byte_at (b : list Z) (i : nat) : Z := nth i b 0.

Definition set_feedrate (feedrate : Z) : M value :=
  feedrate_bytes <- lift (to_bytes feedrate 4) ;;
  f <- lift (make_bytearray 1 [96; 146] 1 2 [byte_at feedrate_bytes 0;
                                              byte_at feedrate_bytes 1]) ;;
  send_command f ;;
  f <- lift (make_bytearray 1 [96; 146] 2 1 [1]) ;;
  send_command f ;;
  ret VNone.

Definition set_mode (fuel : nat) (mode : Z) : M value :=
  f <- lift (make_bytearray 1 [96; 96] 0 1 [mode]) ;;
  send_command f ;;
  while fuel
    (differs (q <- lift (make_bytearray 0 [96; 97] 0 1 temp_data_default) ;;
              send_command q)
             (make_bytearray 0 [96; 97] 0 1 [mode]))
    (sleep 1) ;;
  ret VNone.

Definition methods : list (string * Z) :=
  [("LSN", 17);
   ("LSP", 18);
   ("IEN", 33);
   ("IEP", 34);
   ("SCP", 37);
   ("AAF", 255)].

(** [d[k]] on a dict: a missing key raises [KeyError(k)]. *)
Fixpoint getitem (d : list (string * Z)) (k : string) : except Z :=
  match d with
  | [] => Exc (KeyError k)
  | (k', v) :: d' => if String.eqb k' k then Val v else getitem d' k
  end.

Definition set_homing (fuel : nat) (method : string)
  (find_velocity zero_velocity acceleration : Z) : M value :=
  set_mode fuel 6 ;;
  selected_method <- lift (getitem methods method) ;;
  (* homing method *)
  f <- lift (make_bytearray 1 [96; 152] 1 1 [selected_method]) ;;
  send_command f ;;
  set_feedrate 6000 ;;
  (* homing velocity - max search velocity *)
  find_velocity_bytes <- lift (to_bytes find_velocity 4) ;;
  f <- lift (make_bytearray 1 [96; 153] 1 2 [byte_at find_velocity_bytes 0;
                                              byte_at find_velocity_bytes 1]) ;;
  send_command f ;;
  (* zeroing velocity - velocity after contact *)
  zero_velocity_bytes <- lift (to_bytes zero_velocity 4) ;;
  f <- lift (make_bytearray 1 [96; 153] 2 2 [byte_at zero_velocity_bytes 0;
                                              byte_at zero_velocity_bytes 1]) ;;
  send_command f ;;
  (* homing acceleration *)
  acceleration_bytes <- lift (to_bytes acceleration 4) ;;
  f <- lift (make_bytearray 1 [96; 154] 0 2 [byte_at acceleration_bytes 0;
                                              byte_at acceleration_bytes 1]) ;;
  send_command f ;;
  (* start movement *)
  f <- lift (make_bytearray 1 [96; 64] 0 2 [31; 0]) ;;
  r <- send_command f ;;
  print (VInts r) ;;
  (* reset start bit *)
  f <- lift (make_bytearray 1 [96; 64] 0 2 [15; 0]) ;;
  send_command f ;;
  while fuel
    (differs poll_status (make_bytearray 0 [96; 65] 0 2 [39; 22]))
    (print (VStr "wait for Homing to end") ;;
     r <- poll_status ;;
     print (VInts r) ;;
     sleep 1) ;;
  f <- lift (get_array "enable_operation") ;;
  send_command f ;;
  ret VNone.

(** [struct.unpack("<xxxxxxxxxxxxxxxxxxxi", buf)[0]]: nineteen pad bytes. *)
Definition unpack_register (buf : list Z) : except Z := unpack_pad_i 19 buf.

Definition move (fuel : nat) (velocity acceleration target_position : Z)
  : M value :=
  set_mode fuel 1 ;;
  velocity_bytes <- lift (to_bytes velocity 4) ;;
  f <- lift (make_bytearray 1 [96; 129] 0 4 [byte_at velocity_bytes 0;
                                              byte_at velocity_bytes 1;
                                              byte_at velocity_bytes 2;
                                              byte_at velocity_bytes 3]) ;;
  send_command f ;;
  acceleration_bytes <- lift (to_bytes acceleration 4) ;;
  f <- lift (make_bytearray 1 [96; 131] 0 4 [byte_at acceleration_bytes 0;
                                              byte_at acceleration_bytes 1;
                                              byte_at acceleration_bytes 2;
                                              byte_at acceleration_bytes 3]) ;;
  send_command f ;;
  target_position_bytes <- lift (to_bytes target_position 4) ;;
  f <- lift (make_bytearray 1 [96; 122] 0 4 [byte_at target_position_bytes 0;
                                              byte_at target_position_bytes 1;
                                              byte_at target_position_bytes 2;
                                              byte_at target_position_bytes 3]) ;;
  send_command f ;;
  f <- lift (make_bytearray 1 [96; 64] 0 2 [31; 0]) ;;
  r <- send_command f ;;
  print (VInts r) ;;
  f <- lift (make_bytearray 1 [96; 64] 0 2 [15; 0]) ;;
  send_command f ;;
  while fuel
    (differs poll_status (make_bytearray 0 [96; 65] 0 2 [39; 6]))
    (sleep (1 # 10)) ;;
  f <- lift (make_bytearray 0 [96; 100] 0 4 temp_data_default) ;;
  actual_position_bytes <- send_command f ;;
  position <- lift (unpack_register actual_position_bytes) ;;
  f <- lift (make_bytearray 0 [96; 108] 0 4 temp_data_default) ;;
  actual_velocity_bytes <- send_command f ;;
  speed <- lift (unpack_register actual_velocity_bytes) ;;
  print (VInts [position; speed]) ;;
  f <- lift (get_array "enable_operation") ;;
  send_command f ;;
  ret VNone.

Definition get_status : M value :=
  f <- lift (make_bytearray 0 [96; 100] 0 4 temp_data_default) ;;
  actual_position_bytes <- send_command f ;;
  position <- lift (unpack_register actual_position_bytes) ;;
  f <- lift (make_bytearray 0 [96; 108] 0 4 temp_data_default) ;;
  actual_velocity_bytes <- send_command f ;;
  speed <- lift (unpack_register actual_velocity_bytes) ;;
  ret (VInts [position; speed]).

(** [for i in range(n): body(i)]: an [n] below 1 gives no round. *)
Fixpoint for_range_from (i : Z) (count : nat) (body : Z -> M unit) : M unit :=
  match count with
  | O => ret tt
  | S k => body i ;; for_range_from (i + 1) k body
  end.

Definition for_range (n : Z) (body : Z -> M unit) : M unit :=
  for_range_from 0 (Z.to_nat n) body.

(** [wait_time] is handed to [time.sleep] as it is; [go_back is True] holds
    for the boolean [True] only, so [go_back] is a [bool] here. *)
Definition staggered_move (fuel : nat)
  (velocity acceleration start_position iterations step_width : Z)
  (wait_time : Q) (go_back : bool) : M value :=
  set_mode fuel 1 ;;
  velocity_bytes <- lift (to_bytes velocity 4) ;;
  f <- lift (make_bytearray 1 [96; 129] 0 4 [byte_at velocity_bytes 0;
                                              byte_at velocity_bytes 1;
                                              byte_at velocity_bytes 2;
                                              byte_at velocity_bytes 3]) ;;
  send_command f ;;
  acceleration_bytes <- lift (to_bytes acceleration 4) ;;
  f <- lift (make_bytearray 1 [96; 131] 0 4 [byte_at acceleration_bytes 0;
                                              byte_at acceleration_bytes 1;
                                              byte_at acceleration_bytes 2;
                                              byte_at acceleration_bytes 3]) ;;
  send_command f ;;
  move fuel velocity acceleration start_position ;;
  for_range iterations
    (fun i =>
       move fuel velocity acceleration (start_position + step_width * (i + 1)) ;;
       sleep wait_time) ;;
  (if go_back
   then move fuel velocity acceleration start_position ;; ret tt
   else ret tt) ;;
  ret VNone.

(** [sock.close()]: the socket is no longer connected and what was queued
    is gone. *)
Definition socket_close : M unit :=
  _ <- get_sock ;;
  fun w =>
    Ret tt {| sock := Some {| connected := false; stream := [] |};
              trace := trace w |}.

Definition close : M value :=
  socket_close ;;
  ret VNone.

(** ** Vocabulary of the statements *)

Definition READ : Z := 0.
Definition WRITE : Z := 1.

(** Objects 0x6040 and 0x6041, high byte first as the frames carry them. *)
Definition control_word : list Z := [96; 64].
Definition status_word : list Z := [96; 65].

(** The entries of [temp_data] the builder keeps. *)
Definition supplied (temp_data : list Z) : list Z :=
  filter (fun i => negb (i =? -1)) temp_data.

(** The payload region of a frame with a two-byte object index: what follows
    the 19 header bytes. *)
Definition payload (frame : list Z) : list Z := skipn 19 frame.

(** A frame written out, with its length byte. *)
Definition frame_bytes (read_write : Z) (obj_ind : list Z)
  (sub_ind data_len : Z) (data : list Z) : list Z :=
  [0; 0; 0; 0; 0; Z.of_nat (11 + List.length obj_ind + List.length data);
   0; 43; 13; read_write; 0; 0]
  ++ obj_ind ++ [sub_ind; 0; 0; 0; data_len] ++ data.

(** The inputs on which [bytearray] and the length byte stay within a byte. *)
Definition accepted (read_write : Z) (obj_ind : list Z)
  (sub_ind data_len : Z) (data : list Z) : bool :=
  is_byte read_write && forallb is_byte obj_ind && is_byte sub_ind
  && is_byte data_len && forallb is_byte data
  && (List.length obj_ind + List.length data <=? 244)%nat.

(** A driver whose socket is connected, with [st] still to come from the
    device and [t] done so far. *)
Definition online (st : list rx_event) (t : list action) : world :=
  {| sock := Some {| connected := true; stream := st |}; trace := t |}.

(** A device that answers the successive requests with [replies]. *)
Definition device (replies : list (list Z)) : world :=
  online (map Data replies) [].

(** The status reply that carries the byte pair [lo], [hi]. *)
Definition status_reply (lo hi : Z) : list Z :=
  frame_bytes READ status_word 0 2 [lo; hi].

(** The reply to a four-byte read of object [obj_ind] holding [v]. *)
Definition register_reply (obj_ind : list Z) (v : Z) : list Z :=
  frame_bytes READ obj_ind 0 4 (le_bytes 4 (v mod 2 ^ 32)).

Definition status_query : list Z := frame_bytes READ status_word 0 2 [].
Definition control_write (lo hi : Z) : list Z :=
  frame_bytes WRITE control_word 0 2 [lo; hi].

(** Mode of operation (0x6060) and its display (0x6061). *)
Definition mode_write (mode : Z) : list Z := frame_bytes WRITE [96; 96] 0 1 [mode].
Definition mode_query : list Z := frame_bytes READ [96; 97] 0 1 [].
Definition mode_display (mode : Z) : list Z :=
  frame_bytes READ [96; 97] 0 1 [mode].

(** Four-byte writes and reads of a register. *)
Definition register_write (obj_ind : list Z) (v : Z) : list Z :=
  frame_bytes WRITE obj_ind 0 4 (le_bytes 4 v).
Definition register_query (obj_ind : list Z) : list Z :=
  frame_bytes READ obj_ind 0 4 [].

(** A reply that one [recv(24)] takes whole. *)
Definition short (r : list Z) : Prop := (List.length r <= 24)%nat.

(** The value [struct.unpack] reads in a reply. *)
Definition decoded (reply : list Z) : Z := signed32 (from_le (payload reply)).

(** What a [send_command] loop with one query per round leaves in the
    trace while the replies [waiting] come in, and at the reply that ends
    it. *)
Definition polled (query : list Z) (seconds : Q) (waiting : list (list Z))
  : list action :=
  flat_map (fun _ => [Sent query; Slept seconds]) waiting ++ [Sent query].


(** [w'] continues the trace of [w]. *)
Definition extends (w w' : world) : Prop :=
  exists t, trace w' = trace w ++ t.

(** A computation that, when it returns, has only added to the trace. *)
Definition grows {A} (m : M A) : Prop :=
  forall w a w', m w = Ret a w' -> extends w w'.

(** *** Simulated devices *)

(** The device's reply to a write, which the driver never inspects. *)
Definition ack (obj_ind : list Z) (sub_ind : Z) : list Z :=
  frame_bytes WRITE obj_ind sub_ind 0 [].

(** Answers the status query with 0x0620, then with 0x0621 from then on. *)
Definition shutdown_device : world :=
  device [ack control_word 0;
          status_reply 32 6; status_reply 33 6; status_reply 33 6;
          status_reply 33 6].

(** Answers the status query with 0x0620, then 0x0621, and then falls
    silent. *)
Definition shutdown_device_two_replies : world :=
  device [ack control_word 0; status_reply 32 6; status_reply 33 6].

(** Shows mode 6 at once. *)
Definition homing_device : world :=
  device [ack [96; 96] 0; mode_display 6].

(** Shows mode 1 at once, reports target reached (0x0627) at the third
    status poll, then position [position] and velocity [velocity]. *)
Definition move_device (position velocity : Z) : world :=
  device [ack [96; 96] 0; mode_display 1;
          ack [96; 129] 0; ack [96; 131] 0; ack [96; 122] 0;
          ack control_word 0; ack control_word 0;
          status_reply 39 2; status_reply 39 2; status_reply 39 6;
          register_reply [96; 100] position; register_reply [96; 108] velocity;
          ack control_word 0].

(** *** Rounds of the power-state loops *)

(** The three replies of a round that ends in a sleep: none is the literal
    it is compared with. *)
Definition failing_round (e1 e2 e3 : list Z) (r : list Z * list Z * list Z)
  : Prop :=
  let '(a, b, c) := r in
  short a /\ a <> e1 /\ short b /\ b <> e2 /\ short c /\ c <> e3.

Definition round_replies (r : list Z * list Z * list Z) : list (list Z) :=
  let '(a, b, c) := r in [a; b; c].

(** The replies of the round that ends the loop: the first is the first
    literal, or the second the second, or the third the third. *)
Inductive closing_round (e1 e2 e3 : list Z) : list (list Z) -> Prop :=
| closes_first : closing_round e1 e2 e3 [e1]
| closes_second (a : list Z) :
    short a -> a <> e1 -> closing_round e1 e2 e3 [a; e2]
| closes_third (a b : list Z) :
    short a -> a <> e1 -> short b -> b <> e2 ->
    closing_round e1 e2 e3 [a; b; e3].

(** What the loop leaves in the trace over [rounds] failing rounds and the
    closing round [last]. *)
Definition waited (msg : string) (rounds : list (list Z * list Z * list Z))
  (last : list (list Z)) : list action :=
  flat_map (fun _ => [Sent status_query; Sent status_query; Sent status_query;
                      Printed (VStr msg); Slept 1]) rounds
  ++ map (fun _ => Sent status_query) last.

(** The replies a whole power-state call consumes. *)
Definition power_stream (r0 : list Z) (rounds : list (list Z * list Z * list Z))
  (last : list (list Z)) : list rx_event :=
  Data r0 :: map Data (flat_map round_replies rounds) ++ map Data last.

(** *** Rounds of the homing loop *)

(** A round of the homing loop takes two status replies: the one compared
    with 0x1627 and the one printed. *)
Definition homing_round (r : list Z * list Z) : Prop :=
  let '(s, p) := r in short s /\ s <> status_reply 39 22 /\ short p.

Definition homing_replies (r : list Z * list Z) : list (list Z) :=
  let '(s, p) := r in [s; p].

Definition homing_waited (rounds : list (list Z * list Z)) : list action :=
  flat_map (fun r => [Sent status_query;
                      Printed (VStr "wait for Homing to end");
                      Sent status_query;
                      Printed (VInts (snd r));
                      Slept 1]) rounds
  ++ [Sent status_query].

(** Two-byte write of the low 16 bits of [v]. *)
Definition word_write (obj_ind : list Z) (sub_ind v : Z) : list Z :=
  frame_bytes WRITE obj_ind sub_ind 2 (le_bytes 2 v).

(** *** One leg of a staggered move *)








(** Why a driver cannot talk: no socket, or a socket that is not connected. *)
Definition offline (w : world) : option exn :=
  match sock w with
  | None => Some AttributeError
  | Some s => if connected s then None else Some OSError
  end.

(** * Properties of the codec *)

Lemma setitem_val (a : list Z) (i : nat) (v : Z) (f : list Z) :
  setitem a i v = Val f ->
  nth i f 0 = v /\ List.length f = List.length a.
Proof.
  unfold setitem.
  destruct (i <? List.length a)%nat eqn:Hi; [| discriminate].
  destruct (is_byte v); [| discriminate].
  intros [= <-]. apply Nat.ltb_lt in Hi. split.
  - rewrite app_nth2; rewrite firstn_length_le by lia; [| lia].
    now replace (i - i)%nat with 0%nat by lia.
  - rewrite length_app. cbn [List.length].
    rewrite firstn_length_le by lia.
    change (match a with [] => [] | _ :: l => skipn i l end) with (skipn (S i) a).
    rewrite length_skipn. lia.
Qed.

Lemma supplied_not_sentinel (l : list Z) :
  forallb is_byte l = true -> supplied l = l.
Proof.
  unfold supplied. induction l as [| x l IH]; simpl; [reflexivity |].
  intros H. apply andb_prop in H as [Hx Hl].
  unfold is_byte in Hx. apply andb_prop in Hx as [H0 _]. apply Z.leb_le in H0.
  destruct (x =? -1) eqn:E; [apply Z.eqb_eq in E; lia |].
  simpl. now rewrite IH.
Qed.

(** The builder in closed form: no comparison of the payload with
    [data_len], and [ValueError] as its only failure. *)
Lemma make_bytearray_spec (rw : Z) (oi : list Z) (si dl : Z) (td : list Z) :
  make_bytearray rw oi si dl td =
  if accepted rw oi si dl (supplied td)
  then Val (frame_bytes rw oi si dl (supplied td))
  else Exc ValueError.
Proof.
  unfold make_bytearray, bytearray, header, accepted, frame_bytes.
  fold (supplied td). set (data := supplied td).
  rewrite forallb_app.
  cbn [forallb app]. 
  rewrite forallb_app. cbn [forallb].
  change (is_byte 0) with true. change (is_byte 43) with true.
  change (is_byte 13) with true. cbn [andb].
  rewrite !andb_true_r.
  destruct (is_byte rw); cbn [andb]; [| reflexivity].
  destruct (forallb is_byte oi); cbn [andb]; [| reflexivity].
  destruct (is_byte si); cbn [andb]; [| reflexivity].
  destruct (is_byte dl); cbn [andb]; [| reflexivity].
  destruct (forallb is_byte data); cbn [andb ebind]; [| reflexivity].
  unfold setitem. cbn [List.length firstn skipn app Nat.ltb Nat.leb].
  rewrite !length_app. cbn [List.length].
  match goal with
  | |- context [Z.of_nat ?n - 6] =>
      replace (Z.of_nat n - 6)
        with (Z.of_nat (11 + List.length oi + List.length data)) by lia
  end.
  unfold is_byte.
  destruct (List.length oi + List.length data <=? 244)%nat eqn:E.
  - apply Nat.leb_le in E.
    replace (0 <=? Z.of_nat (11 + List.length oi + List.length data)) with true
      by (symmetry; apply Z.leb_le; lia).
    replace (Z.of_nat (11 + List.length oi + List.length data) <? 256) with true
      by (symmetry; apply Z.ltb_lt; lia).
    cbn [andb]. rewrite <- app_assoc. reflexivity.
  - apply Nat.leb_gt in E.
    replace (Z.of_nat (11 + List.length oi + List.length data) <? 256) with false
      by (symmetry; apply Z.ltb_ge; lia).
    now rewrite andb_false_r.
Qed.

(** C8: for every frame the builder produces, whatever the mode, address,
    sub-index, byte count and payload, byte 5 of the frame equals the
    frame's total length minus 6. *)
Theorem C8_length_byte (rw : Z) (oi : list Z) (si dl : Z) (td f : list Z) :
  make_bytearray rw oi si dl td = Val f ->
  nth 5 f 0 = Z.of_nat (List.length f) - 6.
Proof.
  unfold make_bytearray, bytearray. cbv zeta.
  destruct (forallb is_byte _); cbn [ebind]; [| discriminate].
  intros H. apply setitem_val in H as [H5 Hlen].
  rewrite H5, Hlen. reflexivity.
Qed.

Lemma C8_length_byte_witness :
  nth 5 (frame_bytes WRITE [96; 146] 1 2 [112; 23]) 0 =
  Z.of_nat (List.length (frame_bytes WRITE [96; 146] 1 2 [112; 23])) - 6.
Proof.
  apply (C8_length_byte 1 [96; 146] 1 2 [112; 23]). reflexivity.
Defined.

(** C9: the canned frames are plain calls of the builder: "shutdown",
    "switch_on" and "enable_operation" are two-byte writes of 0x0006, 0x0007
    and 0x000F to the control word, "status" is a two-byte read of the
    status word; the shutdown frame is written out byte for byte. *)
Theorem C9_canned_frames :
  get_array "shutdown" = make_bytearray WRITE control_word 0 2 [6; 0]
  /\ get_array "switch_on" = make_bytearray WRITE control_word 0 2 (le_bytes 2 7)
  /\ get_array "enable_operation" =
     make_bytearray WRITE control_word 0 2 (le_bytes 2 15)
  /\ get_array "status" = make_bytearray READ status_word 0 2 temp_data_default
  /\ get_array "shutdown" =
     Val [0; 0; 0; 0; 0; 15; 0; 43; 13; 1; 0; 0; 96; 64; 0; 0; 0; 0; 2; 6; 0]
  /\ get_array "status" =
     Val [0; 0; 0; 0; 0; 13; 0; 43; 13; 0; 0; 0; 96; 65; 0; 0; 0; 0; 2].
Proof. repeat split; reflexivity. Qed.

(** C4, as the code has it: the builder compares nothing with [data_len] and
    knows no InvalidFrameError.  It returns the frame whenever the mode, the
    address bytes, the sub-index, [data_len] and the payload entries other
    than -1 are bytes and the length byte fits, and raises [ValueError]
    otherwise; run inside a method it leaves the driver untouched. *)
Theorem C4_builder_checks_only_bytes
  (rw : Z) (oi : list Z) (si dl : Z) (td : list Z) :
  make_bytearray rw oi si dl td =
    (if accepted rw oi si dl (supplied td)
     then Val (frame_bytes rw oi si dl (supplied td))
     else Exc ValueError)
  /\ forall w : world,
       lift (make_bytearray rw oi si dl td) w =
       if accepted rw oi si dl (supplied td)
       then Ret (frame_bytes rw oi si dl (supplied td)) w
       else Raise ValueError w.
Proof.
  split; [apply make_bytearray_spec |].
  intros w. unfold lift. rewrite make_bytearray_spec.
  now destruct (accepted rw oi si dl (supplied td)).
Qed.

(** C4 fails as stated: a write frame that declares two bytes and is given
    one, and a frame that declares five bytes, are both built. *)
Lemma C4_counterexample :
  make_bytearray WRITE control_word 0 2 [6] =
    Val [0; 0; 0; 0; 0; 14; 0; 43; 13; 1; 0; 0; 96; 64; 0; 0; 0; 0; 2; 6]
  /\ make_bytearray WRITE control_word 0 5 [1; 2; 3; 4; 5] =
    Val [0; 0; 0; 0; 0; 18; 0; 43; 13; 1; 0; 0; 96; 64; 0; 0; 0; 0; 5;
         1; 2; 3; 4; 5].
Proof. split; reflexivity. Qed.

(** C5, as the code has it: the payload of a built frame is the supplied
    entries other than -1, in either mode and whatever [data_len] says.  So
    a frame built without a payload argument carries no payload byte, and a
    frame given [data_len] bytes carries exactly [data_len] of them. *)
Theorem C5_payload_is_supplied (rw a b si dl : Z) (td f : list Z) :
  make_bytearray rw [a; b] si dl td = Val f ->
  payload f = supplied td
  /\ (td = temp_data_default -> payload f = [])
  /\ (forallb is_byte td = true -> Z.of_nat (List.length td) = dl ->
      Z.of_nat (List.length (payload f)) = dl).
Proof.
  rewrite make_bytearray_spec.
  destruct (accepted _ _ _ _ _); [| discriminate].
  intros [= <-].
  assert (E : payload (frame_bytes rw [a; b] si dl (supplied td)) = supplied td)
    by reflexivity.
  rewrite E. repeat split.
  - intros ->. reflexivity.
  - intros Hb <-. now rewrite supplied_not_sentinel.
Qed.

Lemma C5_payload_is_supplied_witness :
  payload (frame_bytes WRITE [96; 129] 0 4 [80; 195; 0; 0]) = [80; 195; 0; 0]
  /\ Z.of_nat (List.length
       (payload (frame_bytes WRITE [96; 129] 0 4 [80; 195; 0; 0]))) = 4.
Proof.
  destruct (C5_payload_is_supplied 1 96 129 0 4 [80; 195; 0; 0]
              (frame_bytes WRITE [96; 129] 0 4 [80; 195; 0; 0]) eq_refl)
    as (Hp & _ & Hn).
  split; [exact Hp | apply Hn; reflexivity].
Defined.

(** C5 fails as stated: the expected-reply frame of [set_shutdown] is built
    in read mode and carries two payload bytes, and a write frame declaring
    two bytes carries the single byte it was given. *)
Lemma C5_counterexample :
  make_bytearray READ status_word 0 2 [33; 6] =
    Val [0; 0; 0; 0; 0; 15; 0; 43; 13; 0; 0; 0; 96; 65; 0; 0; 0; 0; 2; 33; 6]
  /\ payload
       [0; 0; 0; 0; 0; 15; 0; 43; 13; 0; 0; 0; 96; 65; 0; 0; 0; 0; 2; 33; 6]
     = [33; 6]
  /\ make_bytearray WRITE control_word 0 2 [6] =
    Val [0; 0; 0; 0; 0; 14; 0; 43; 13; 1; 0; 0; 96; 64; 0; 0; 0; 0; 2; 6]
  /\ payload [0; 0; 0; 0; 0; 14; 0; 43; 13; 1; 0; 0; 96; 64; 0; 0; 0; 0; 2; 6]
     = [6].
Proof. repeat split; reflexivity. Qed.

(** * Properties of the connection *)

Lemma bind_ret {A B} (m : M A) (k : A -> M B) (w w' : world) (a : A) :
  m w = Ret a w' -> (x <- m ;; k x) w = k a w'.
Proof. unfold bind. now intros ->. Qed.

Lemma bind_lift {A B} (x : except A) (k : A -> M B) (w : world) (a : A) :
  x = Val a -> (y <- lift x ;; k y) w = k a w.
Proof. now intros ->. Qed.


(** One exchange with a device whose next reply fits the read. *)
Lemma send_command_reply (f r : list Z) (rest : list rx_event)
  (t : list action) :
  (List.length r <= 24)%nat ->
  send_command f (online (Data r :: rest) t) =
  Ret r (online rest (t ++ [Sent f])).
Proof.
  intros H. unfold send_command, socket_send, socket_recv, get_sock, bind, ret.
  cbn -[firstn skipn Nat.leb]. rewrite firstn_all2 by lia.
  apply Nat.leb_le in H. now rewrite H.
Qed.

(** [send_command] by cases on the socket and on what the stream holds. *)
Lemma send_command_cases (data : list Z) (w : world) :
  send_command data w =
    match sock w with
    | None => Raise AttributeError w
    | Some s =>
        if negb (connected s) then Raise OSError w
        else
          match stream s with
          | Pending e :: rest => Raise e (with_stream w rest)
          | Failing e :: rest => Raise e (with_stream (emit (Sent data) w) rest)
          | [] => Blocked (emit (Sent data) w)
          | Data bs :: rest =>
              Ret (firstn 24 bs)
                (with_stream (emit (Sent data) w)
                   (if (List.length bs <=? 24)%nat then rest
                    else Data (skipn 24 bs) :: rest))
          end
    end.
Proof.
  unfold send_command, socket_send, socket_recv, get_sock, bind, ret.
  destruct w as [[[[|] [| [bs | e | e] rest]] |] t];
    cbn -[firstn skipn Nat.leb]; reflexivity.
Qed.

(** When [send_command] returns, the frame is the one new entry of the
    trace and the reply has at most 24 bytes. *)
Lemma send_command_ret (data r : list Z) (w w' : world) :
  send_command data w = Ret r w' ->
  trace w' = trace w ++ [Sent data] /\ (List.length r <= 24)%nat.
Proof.
  rewrite send_command_cases.
  destruct (sock w) as [[[|] [| [bs | e | e] rest]] |]; cbn [negb connected stream];
    try discriminate.
  intros [= <- <-]. split; [reflexivity | exact (firstn_le_length 24 bs)].
Qed.

(** C6, as the code has it: [send_command] hands the frame to the socket and
    then does one [recv] of at most 24 bytes, returning whatever came: a
    reply shorter than 24 bytes, or the empty reply of a closed stream, is
    returned like any other, and a longer one is cut at 24 bytes.  It raises only what the socket raises -
    [AttributeError] without a socket, the socket's error when it is not
    connected or the stream fails - and blocks while nothing arrives. *)
Theorem C6_send_command (data : list Z) (w : world) :
  send_command data w =
    match sock w with
    | None => Raise AttributeError w
    | Some s =>
        if negb (connected s) then Raise OSError w
        else
          match stream s with
          | Pending e :: rest => Raise e (with_stream w rest)
          | Failing e :: rest => Raise e (with_stream (emit (Sent data) w) rest)
          | [] => Blocked (emit (Sent data) w)
          | Data bs :: rest =>
              Ret (firstn 24 bs)
                (with_stream (emit (Sent data) w)
                   (if (List.length bs <=? 24)%nat then rest
                    else Data (skipn 24 bs) :: rest))
          end
    end
  /\ (forall (bs : list Z) (rest : list rx_event) (t : list action),
        (List.length bs < 24)%nat ->
        send_command data (online (Data bs :: rest) t) =
        Ret bs (online rest (t ++ [Sent data])))
  /\ (forall (r : list Z) (w' : world),
        send_command data w = Ret r w' ->
        trace w' = trace w ++ [Sent data] /\ (List.length r <= 24)%nat).
Proof.
  split; [apply send_command_cases |]. split.
  - intros bs rest t H. apply send_command_reply. lia.
  - intros r w'. apply send_command_ret.
Qed.

Lemma C6_send_command_witness :
  send_command status_query (online [Data [0; 0; 0]; Data []] []) =
    Ret [0; 0; 0] (online [Data []] [Sent status_query]).
Proof.
  apply (proj1 (proj2 (C6_send_command status_query blank))
           [0; 0; 0] [Data []] []).
  simpl. lia.
Defined.

(** C6 fails as stated: a reply of three bytes, and the empty reply of a
    stream the device has closed, come back as ordinary return values. *)
Lemma C6_counterexample :
  send_command status_query (device [[0; 0; 0]]) =
    Ret [0; 0; 0] (online [] [Sent status_query])
  /\ send_command status_query (device [[]]) =
    Ret [] (online [] [Sent status_query]).
Proof. split; reflexivity. Qed.

(** C10: constructing a driver never raises.  Whatever the operating system
    answers to [socket.socket] and to [connect], the constructor returns,
    having talked to no device.  When no socket could be created the driver
    has no [sock] attribute and a later [send_command] raises
    [AttributeError]; when the connection failed the driver holds the
    unconnected socket and a later [send_command] raises the socket's
    error. *)
Theorem C10_constructor_never_raises
  (env : os) (ip_address : string) (port : Z) :
  exists self : world,
    D1 env ip_address port = Ret tt self
    /\ trace self = []
    /\ match socket_error env, peer env ip_address port with
       | Some _, _ =>
           sock self = None
           /\ forall data, send_command data self = Raise AttributeError self
       | None, Exc _ =>
           sock self = Some {| connected := false; stream := [] |}
           /\ forall data, send_command data self = Raise OSError self
       | None, Val st =>
           sock self = Some {| connected := true; stream := st |}
       end.
Proof.
  unfold D1, __init__, try_except_pass, socket_socket, socket_connect,
    set_sock, get_sock, bind, blank.
  destruct (socket_error env) as [e |]; cbn.
  - eexists. repeat split.
  - destruct (peer env ip_address port) as [st | e]; cbn;
      eexists; repeat split.
Qed.

(** * Properties of the polling loops *)

Lemma bytes_eqb_eq (a b : list Z) : bytes_eqb a b = true <-> a = b.
Proof.
  revert b. induction a as [| x a IH]; intros [| y b]; simpl; split;
    try reflexivity; try discriminate.
  - intros H. apply andb_prop in H as [Hx Hab].
    apply Z.eqb_eq in Hx. apply IH in Hab. now subst.
  - intros [= -> ->]. rewrite Z.eqb_refl. now apply IH.
Qed.

Lemma bytes_eqb_refl (a : list Z) : bytes_eqb a a = true.
Proof. now apply bytes_eqb_eq. Qed.

Lemma sleep_nonneg (s : Q) (w : world) :
  (0 <= s)%Q -> sleep s w = Ret tt (emit (Slept s) w).
Proof. intros H. unfold sleep. apply Qle_bool_iff in H. now rewrite H. Qed.

Lemma while_continue (fuel : nat) (c : M bool) (b : M unit) (w w1 w2 : world) :
  c w = Ret true w1 -> b w1 = Ret tt w2 ->
  while (S fuel) c b w = while fuel c b w2.
Proof. intros Hc Hb. cbn [while]. unfold bind. now rewrite Hc, Hb. Qed.

Lemma while_done (fuel : nat) (c : M bool) (b : M unit) (w w1 : world) :
  c w = Ret false w1 -> while (S fuel) c b w = Ret tt w1.
Proof. intros Hc. cbn [while]. unfold bind. now rewrite Hc. Qed.

(** One evaluation of [send_command(query) != expected]. *)
Lemma differs_reply (qx ex : except (list Z)) (q e r : list Z)
  (rest : list rx_event) (t : list action) :
  qx = Val q -> ex = Val e -> (List.length r <= 24)%nat ->
  differs (f <- lift qx ;; send_command f) ex (online (Data r :: rest) t) =
  Ret (negb (bytes_eqb r e)) (online rest (t ++ [Sent q])).
Proof.
  intros -> -> Hr. unfold differs.
  rewrite (bind_ret _ _ _ (online rest (t ++ [Sent q])) r).
  - reflexivity.
  - rewrite (bind_lift (Val q) _ _ q eq_refl). now apply send_command_reply.
Qed.

(** A loop [while send_command(query) != expected: time.sleep(s)] against a
    device that gives the replies [bad], none of them the expected one, and
    then the expected one: it ends after [length bad] sleeps. *)
Lemma poll_until_reply (qx ex : except (list Z)) (q e : list Z) (s : Q)
  (rest : list rx_event) :
  qx = Val q -> ex = Val e -> (List.length e <= 24)%nat -> (0 <= s)%Q ->
  forall (bad : list (list Z)) (fuel : nat) (t : list action),
    Forall (fun r => (List.length r <= 24)%nat /\ r <> e) bad ->
    (List.length bad < fuel)%nat ->
    while fuel (differs (f <- lift qx ;; send_command f) ex) (sleep s)
      (online (map Data bad ++ Data e :: rest) t) =
    Ret tt (online rest
              (t ++ flat_map (fun _ => [Sent q; Slept s]) bad ++ [Sent q])).
Proof.
  intros Hq He Hlen Hs. induction bad as [| r bad IH]; intros fuel t Hbad Hfuel.
  - destruct fuel as [| fuel]; [simpl in Hfuel; lia |].
    cbn [map app flat_map].
    rewrite (while_done fuel _ _ _ (online rest (t ++ [Sent q]))).
    + reflexivity.
    + rewrite (differs_reply qx ex q e e) by assumption.
      now rewrite bytes_eqb_refl.
  - destruct fuel as [| fuel]; [simpl in Hfuel; lia |].
    apply Forall_cons_iff in Hbad as [[Hr Hne] Hbad'].
    cbn [map app flat_map].
    rewrite (while_continue fuel _ _ _
               (online (map Data bad ++ Data e :: rest) (t ++ [Sent q]))
               (online (map Data bad ++ Data e :: rest)
                  ((t ++ [Sent q]) ++ [Slept s]))).
    + rewrite IH; [| assumption | simpl in Hfuel; lia].
      now rewrite <- !app_assoc.
    + rewrite (differs_reply qx ex q e r) by assumption.
      destruct (bytes_eqb r e) eqn:E; [apply bytes_eqb_eq in E; contradiction |].
      reflexivity.
    + now apply sleep_nonneg.
Qed.

(** * Little-endian fields *)

Lemma is_byte_mod (x : Z) : is_byte (x mod 256) = true.
Proof.
  unfold is_byte. pose proof (Z.mod_pos_bound x 256 ltac:(lia)) as H.
  apply andb_true_intro. split; [apply Z.leb_le | apply Z.ltb_lt]; lia.
Qed.

Lemma le_bytes_bytes (n : nat) (v : Z) : forallb is_byte (le_bytes n v) = true.
Proof.
  revert v. induction n as [| n IH]; intros v; simpl; [reflexivity |].
  now rewrite is_byte_mod, IH.
Qed.

Lemma le_bytes_length (n : nat) (v : Z) : List.length (le_bytes n v) = n.
Proof. revert v. induction n as [| n IH]; intros v; simpl; congruence. Qed.

Lemma from_le_le_bytes (n : nat) (v : Z) :
  from_le (le_bytes n v) = v mod 256 ^ Z.of_nat n.
Proof.
  revert v. induction n as [| n IH]; intros v.
  - simpl. now rewrite Z.mod_1_r.
  - cbn [le_bytes from_le]. rewrite IH.
    rewrite Nat2Z.inj_succ, Z.pow_succ_r by lia.
    rewrite Z.rem_mul_r; [reflexivity | lia |].
    apply Z.pow_pos_nonneg; lia.
Qed.

Lemma to_bytes_val (v : Z) (n : nat) :
  0 <= v < 256 ^ Z.of_nat n -> to_bytes v n = Val (le_bytes n v).
Proof.
  intros [H0 H1]. unfold to_bytes.
  replace (v <? 0) with false by (symmetry; apply Z.ltb_ge; lia).
  replace (256 ^ Z.of_nat n <=? v) with false by (symmetry; apply Z.leb_gt; lia).
  reflexivity.
Qed.

Lemma to_bytes_negative (v : Z) (n : nat) :
  v < 0 -> to_bytes v n = Exc OverflowError.
Proof.
  intros H. unfold to_bytes.
  now replace (v <? 0) with true by (symmetry; apply Z.ltb_lt; lia).
Qed.

(** Decoding a 23-byte reply reads its last four bytes as a signed int. *)
Lemma unpack_register_decoded (reply : list Z) :
  List.length reply = 23%nat -> unpack_register reply = Val (decoded reply).
Proof.
  intros H. unfold unpack_register, unpack_pad_i. rewrite H. reflexivity.
Qed.


Lemma decoded_le_bytes (hdr : list Z) (v : Z) :
  List.length hdr = 19%nat -> - 2 ^ 31 <= v < 2 ^ 31 ->
  decoded (hdr ++ le_bytes 4 (v mod 2 ^ 32)) = v.
Proof.
  intros Hh Hv. unfold decoded, payload.
  rewrite skipn_app, Hh, skipn_all2 by lia.
  change (19 - 19)%nat with 0%nat. cbn [skipn app].
  rewrite from_le_le_bytes. change (256 ^ Z.of_nat 4) with (2 ^ 32).
  rewrite Z.mod_mod by lia. unfold signed32.
  destruct (Z.leb_spec 0 v) as [Hp | Hn].
  - rewrite Z.mod_small by lia.
    now replace (v <? 2 ^ 31) with true by (symmetry; apply Z.ltb_lt; lia).
  - replace (v mod 2 ^ 32) with (v + 2 ^ 32)
      by (apply Z.mod_unique with (q := -1); lia).
    replace (v + 2 ^ 32 <? 2 ^ 31) with false by (symmetry; apply Z.ltb_ge; lia).
    lia.
Qed.

(** The builder on arguments that are bytes. *)
Lemma make_bytearray_bytes (rw : Z) (oi : list Z) (si dl : Z) (td : list Z) :
  is_byte rw = true -> forallb is_byte oi = true -> is_byte si = true ->
  is_byte dl = true -> forallb is_byte td = true ->
  (List.length oi + List.length td <= 244)%nat ->
  make_bytearray rw oi si dl td = Val (frame_bytes rw oi si dl td).
Proof.
  intros Hrw Hoi Hsi Hdl Htd Hlen.
  rewrite make_bytearray_spec, (supplied_not_sentinel td Htd).
  unfold accepted. rewrite Hrw, Hoi, Hsi, Hdl, Htd.
  apply Nat.leb_le in Hlen. now rewrite Hlen.
Qed.

(** The frame [move] builds for a four-byte field. *)
Lemma register_write_frame (a b v : Z) (bs : list Z) :
  is_byte a = true -> is_byte b = true -> bs = le_bytes 4 v ->
  make_bytearray 1 [a; b] 0 4
    [byte_at bs 0; byte_at bs 1; byte_at bs 2; byte_at bs 3] =
  Val (register_write [a; b] v).
Proof.
  intros Ha Hb ->.
  change [byte_at (le_bytes 4 v) 0; byte_at (le_bytes 4 v) 1;
          byte_at (le_bytes 4 v) 2; byte_at (le_bytes 4 v) 3]
    with (le_bytes 4 v).
  apply make_bytearray_bytes; try reflexivity.
  - cbn [forallb]. now rewrite Ha, Hb.
  - apply le_bytes_bytes.
  - rewrite le_bytes_length. simpl. lia.
Qed.

(** * The motion procedures *)

(** Proof steps for straight-line driver code: an expression that
    evaluates to a value, and one exchange with the device. *)
Ltac evaluated H := rewrite (bind_lift _ _ _ _ H).
Ltac exchanged r :=
  rewrite (bind_ret _ _ _ _ _
             (send_command_reply _ r _ _
                ltac:(first [assumption | unfold short; lia | lia]))).

(** [set_mode] against a device that shows other modes [waiting] before the
    requested one. *)
Lemma set_mode_returns (fuel : nat) (mode : Z) (r0 : list Z)
  (waiting : list (list Z)) (rest : list rx_event) (t : list action) :
  is_byte mode = true -> short r0 ->
  Forall (fun r => short r /\ r <> mode_display mode) waiting ->
  (List.length waiting < fuel)%nat ->
  set_mode fuel mode
    (online (Data r0 :: map Data waiting ++ Data (mode_display mode) :: rest) t) =
  Ret VNone
    (online rest (t ++ [Sent (mode_write mode)] ++ polled mode_query 1 waiting)).
Proof.
  intros Hm Hr0 Hw Hfuel. unfold set_mode.
  assert (Hf : make_bytearray 1 [96; 96] 0 1 [mode] = Val (mode_write mode)).
  { apply make_bytearray_bytes; try reflexivity; cbn [forallb];
      [now rewrite Hm | simpl; lia]. }
  assert (He : make_bytearray 0 [96; 97] 0 1 [mode] = Val (mode_display mode)).
  { apply make_bytearray_bytes; try reflexivity; cbn [forallb];
      [now rewrite Hm | simpl; lia]. }
  rewrite (bind_lift _ _ _ _ Hf).
  rewrite (bind_ret _ _ _ _ _ (send_command_reply _ r0 _ t Hr0)).
  rewrite (bind_ret _ _ _ _ _
             (poll_until_reply _ _ mode_query (mode_display mode) 1 rest
                eq_refl He ltac:(simpl; lia) ltac:(discriminate)
                waiting fuel _ Hw Hfuel)).
  unfold ret, polled. now rewrite <- !app_assoc.
Qed.

Lemma print_online (v : value) (st : list rx_event) (t : list action) :
  print v (online st t) = Ret tt (online st (t ++ [Printed v])).
Proof. reflexivity. Qed.




(** * What has been sent when a method returns *)

Lemma extends_refl (w : world) : extends w w.
Proof. exists []. now rewrite app_nil_r. Qed.

Lemma extends_trans (w1 w2 w3 : world) :
  extends w1 w2 -> extends w2 w3 -> extends w1 w3.
Proof.
  intros [t1 H1] [t2 H2]. exists (t1 ++ t2). now rewrite H2, H1, app_assoc.
Qed.

Lemma grows_ret {A} (a : A) : grows (ret a).
Proof. intros w b w' [= _ <-]. apply extends_refl. Qed.

Lemma grows_lift {A} (x : except A) : grows (lift x).
Proof.
  intros w a w'. unfold lift. destruct x; [| discriminate].
  intros [= _ <-]. apply extends_refl.
Qed.

Lemma grows_bind {A B} (m : M A) (k : A -> M B) :
  grows m -> (forall a, grows (k a)) -> grows (x <- m ;; k x).
Proof.
  intros Hm Hk w b w'. unfold bind.
  destruct (m w) as [a w1 | | |] eqn:E; try discriminate.
  intros H. eapply extends_trans; [exact (Hm _ _ _ E) | exact (Hk _ _ _ _ H)].
Qed.

Lemma grows_emit (a : action) : grows (fun w => Ret tt (emit a w)).
Proof. intros w u w' H. inversion H; subst. now exists [a]. Qed.

Lemma grows_send_command (data : list Z) : grows (send_command data).
Proof.
  intros w r w' H. exists [Sent data]. exact (proj1 (send_command_ret _ _ _ _ H)).
Qed.

Lemma grows_differs (lhs : M (list Z)) (rhs : except (list Z)) :
  grows lhs -> grows (differs lhs rhs).
Proof.
  intros H. unfold differs. apply grows_bind; [exact H |].
  intros l. apply grows_bind; [apply grows_lift |]. intros r. apply grows_ret.
Qed.

Lemma grows_while (c : M bool) (b : M unit) :
  grows c -> grows b -> forall fuel, grows (while fuel c b).
Proof.
  intros Hc Hb. induction fuel as [| fuel IH]; [discriminate |].
  cbn [while]. apply grows_bind; [exact Hc |].
  intros [|]; [| apply grows_ret].
  apply grows_bind; [exact Hb | intros _; exact IH].
Qed.

(** More fuel does not change what a loop did with less. *)
Lemma while_fuel_mono (c : M bool) (b : M unit) (fuel extra : nat) (w : world) :
  while fuel c b w <> OutOfFuel ->
  while (fuel + extra) c b w = while fuel c b w.
Proof.
  revert w. induction fuel as [| fuel IH]; intros w; [now intros [] |].
  cbn [while Nat.add]. unfold bind.
  destruct (c w) as [[|] w1 | | |]; try reflexivity.
  destruct (b w1) as [[] w2 | | |]; try reflexivity.
  apply IH.
Qed.

(** [set_mode] has sent the mode write by the time it returns. *)
Lemma set_mode_sends (fuel : nat) (mode : Z) (v : value) (w w' : world) :
  is_byte mode = true ->
  set_mode fuel mode w = Ret v w' ->
  exists t, trace w' = trace w ++ Sent (mode_write mode) :: t.
Proof.
  intros Hm. unfold set_mode.
  assert (Hf : make_bytearray 1 [96; 96] 0 1 [mode] = Val (mode_write mode)).
  { apply make_bytearray_bytes; try reflexivity; cbn [forallb];
      [now rewrite Hm | simpl; lia]. }
  rewrite (bind_lift _ _ _ _ Hf). unfold bind at 1.
  destruct (send_command (mode_write mode) w) as [r w1 | | |] eqn:E;
    try discriminate.
  apply send_command_ret in E as [E _]. intros H.
  assert (G : grows (while fuel
                 (differs (q <- lift (make_bytearray 0 [96; 97] 0 1
                                        temp_data_default) ;;
                           send_command q)
                    (make_bytearray 0 [96; 97] 0 1 [mode]))
                 (sleep 1) ;; ret VNone)).
  { apply grows_bind; [| intros _; apply grows_ret].
    apply grows_while; [| apply grows_emit].
    apply grows_differs, grows_bind; [apply grows_lift |].
    intros q. apply grows_send_command. }
  destruct (G _ _ _ H) as [t Ht]. exists t.
  now rewrite Ht, E, <- app_assoc.
Qed.

Lemma getitem_missing (d : list (string * Z)) (k : string) :
  ~ In k (map fst d) -> getitem d k = Exc (KeyError k).
Proof.
  induction d as [| [k' v] d IH]; simpl; [reflexivity |].
  intros H. destruct (String.eqb_spec k' k) as [-> | Hne].
  - exfalso. apply H. now left.
  - apply IH. intros Hin. apply H. now right.
Qed.

(** C3, as the code has it: for every method name that is not a key of the
    table {LSN:17, LSP:18, IEN:33, IEP:34, SCP:37, AAF:255}, [set_homing]
    first runs [set_mode(6)], whose frames go to the device, and once that
    has returned it raises [KeyError] - the code has no
    UnknownHomingMethodError - before the homing-method frame or any later
    frame is built; while [set_mode(6)] does not return, neither does
    [set_homing].  The name "LSN" resolves to 17. *)
Theorem C3_unknown_homing_method
  (fuel : nat) (method : string) (find_velocity zero_velocity acceleration : Z)
  (w : world) :
  ~ In method (map fst methods) ->
  getitem methods method = Exc (KeyError method)
  /\ getitem methods "LSN" = Val 17
  /\ set_homing fuel method find_velocity zero_velocity acceleration w =
     match set_mode fuel 6 w with
     | Ret _ w' => Raise (KeyError method) w'
     | r => r
     end
  /\ forall v w', set_mode fuel 6 w = Ret v w' ->
       exists t, trace w' = trace w ++ Sent (mode_write 6) :: t.
Proof.
  intros H. pose proof (getitem_missing methods method H) as Hk.
  split; [exact Hk |]. split; [reflexivity |]. split.
  - unfold set_homing. unfold bind at 1.
    destruct (set_mode fuel 6 w) as [v w' | | |]; try reflexivity.
    now rewrite Hk.
  - intros v w'. now apply set_mode_sends.
Qed.

Lemma C3_unknown_homing_method_witness :
  set_homing 1 "XYZ" 100 50 10 homing_device =
  Raise (KeyError "XYZ") (online [] [Sent (mode_write 6); Sent mode_query]).
Proof.
  refine (proj1 (proj2 (proj2
            (C3_unknown_homing_method 1 "XYZ" 100 50 10 homing_device _)))).
  simpl. intros [H | [H | [H | [H | [H | [H | []]]]]]]; discriminate.
Defined.

(** C3 fails as stated: with a name outside the table the mode write and a
    mode query have gone to the device when the error - a [KeyError] -
    is raised. *)
Lemma C3_counterexample :
  getitem methods "LSM" = Exc (KeyError "LSM")
  /\ set_homing 1 "LSM" 100 50 10 homing_device =
     Raise (KeyError "LSM")
       (online []
          [Sent [0; 0; 0; 0; 0; 14; 0; 43; 13; 1; 0; 0; 96; 96; 0; 0; 0; 0; 1; 6];
           Sent [0; 0; 0; 0; 0; 13; 0; 43; 13; 0; 0; 0; 96; 97; 0; 0; 0; 0; 1]]).
Proof. split; reflexivity. Qed.

(** * The power-state polls *)

(** C1, on the code: each round of the loop in [set_shutdown] issues a
    status query of its own for every literal it compares with - the first
    reply against 0x0621, the second against 0x1621, the third against
    0x0221.  Against a device that answers 0x0620 and then 0x0621, the
    0x0621 that answers the second query is held against 0x1621 and passed
    over: a third query goes out, and only after one sleep does a fourth
    query end the loop.  If the device gives those two replies and no more,
    the call is stuck in its third query. *)
Theorem C1_shutdown_sends_three_queries_a_round (fuel : nat) :
  set_shutdown (2 + fuel) shutdown_device =
    Ret VNone
      (online []
         [Sent (control_write 6 0);
          Sent status_query; Sent status_query; Sent status_query;
          Printed (VStr "Waiting for shutdown..."); Slept 1;
          Sent status_query])
  /\ set_shutdown (1 + fuel) shutdown_device_two_replies =
    Blocked
      (online []
         [Sent (control_write 6 0);
          Sent status_query; Sent status_query; Sent status_query]).
Proof. split; reflexivity. Qed.

(** * Encoding and decoding of the four-byte fields *)

(** C7, on the code: the velocity 50000 encoded by [to_bytes] and decoded
    by [struct.unpack] comes back as 50000, and the decoder reads the
    two's-complement bytes of -12345 as -12345; but the encoder is the
    unsigned [to_bytes], so -12345 raises [OverflowError], and [move] with
    that target raises it after the velocity and the acceleration have been
    written and before any target frame is sent. *)
Theorem C7_negative_target_overflows (fuel : nat) :
  (b <-- to_bytes 50000 4 ;;;
   unpack_register (frame_bytes READ [96; 129] 0 4 b)) = Val 50000
  /\ unpack_register (register_reply [96; 100] (-12345)) = Val (-12345)
  /\ (b <-- to_bytes (-12345) 4 ;;;
      unpack_register (frame_bytes READ [96; 122] 0 4 b)) = Exc OverflowError
  /\ move (1 + fuel) 1000 500 (-12345) (move_device (-12345) 0) =
     Raise OverflowError
       (online
          (map Data
             [ack [96; 122] 0; ack control_word 0; ack control_word 0;
              status_reply 39 2; status_reply 39 2; status_reply 39 6;
              register_reply [96; 100] (-12345); register_reply [96; 108] 0;
              ack control_word 0])
          [Sent (mode_write 1); Sent mode_query;
           Sent (register_write [96; 129] 1000);
           Sent (register_write [96; 131] 500)]).
Proof. repeat split; reflexivity. Qed.

(** * Further properties of the driver *)

Lemma bind_inv {A B} (m : M A) (k : A -> M B) (w w' : world) (b : B) :
  (x <- m ;; k x) w = Ret b w' ->
  exists a w1, m w = Ret a w1 /\ k a w1 = Ret b w'.
Proof.
  unfold bind. destruct (m w) as [a w1 | | |]; try discriminate.
  intros H. now exists a, w1.
Qed.

Lemma and_then_true (a b : M bool) (w w1 : world) :
  a w = Ret true w1 -> and_then a b w = b w1.
Proof. unfold and_then, bind. now intros ->. Qed.

Lemma grows_and_then (a b : M bool) : grows a -> grows b -> grows (and_then a b).
Proof.
  intros Ha Hb. unfold and_then. apply grows_bind; [exact Ha |].
  intros [|]; [exact Hb | apply grows_ret].
Qed.

Lemma grows_poll_status : grows poll_status.
Proof.
  unfold poll_status. apply grows_bind; [apply grows_lift |].
  intros q. apply grows_send_command.
Qed.

(** A comparison [send_command(get_array("status")) != expected] that
    returns has sent exactly one status query. *)
Lemma differs_poll_ret (ex : except (list Z)) (w w' : world) (b : bool) :
  differs poll_status ex w = Ret b w' ->
  trace w' = trace w ++ [Sent status_query].
Proof.
  unfold differs, poll_status. intros H.
  apply bind_inv in H as (l & w1 & H1 & H2).
  apply bind_inv in H1 as (q & w0 & Hq & Hs).
  change (get_array "status") with (Val status_query) in Hq.
  injection Hq as <- <-.
  apply send_command_ret in Hs as [Hs _].
  apply bind_inv in H2 as (r & w2 & Hr & Hret).
  destruct ex as [e |]; [| discriminate].
  injection Hr as <- <-. injection Hret as _ <-. exact Hs.
Qed.

(** X1: for every device whose first status reply is 0x0620 and whose second
    is 0x0621, whatever it says to the shutdown write and whatever follows: if
    [set_shutdown] returns at all, it has sent a third status query right
    after the second.  The 0x0621 is never what ends the loop. *)
Theorem set_shutdown_passes_over_second_reply
  (fuel : nat) (r0 : list Z) (rest : list rx_event) (t : list action)
  (v : value) (w' : world) :
  short r0 ->
  set_shutdown fuel
    (online (Data r0 :: Data (status_reply 32 6) :: Data (status_reply 33 6)
             :: rest) t) = Ret v w' ->
  exists t',
    trace w' =
    t ++ [Sent (control_write 6 0);
          Sent status_query; Sent status_query; Sent status_query] ++ t'.
Proof.
  intros Hr0. unfold set_shutdown.
  rewrite (bind_lift _ _ _ (control_write 6 0) eq_refl).
  rewrite (bind_ret _ _ _ _ _ (send_command_reply _ r0 _ t Hr0)).
  rewrite (bind_lift _ _ _ (status_reply 33 6) eq_refl).
  rewrite (bind_lift _ _ _ (status_reply 33 22) eq_refl).
  rewrite (bind_lift _ _ _ (status_reply 33 2) eq_refl).
  intros H. apply bind_inv in H as ([] & w2 & Hloop & Hret).
  injection Hret as _ <-.
  destruct fuel as [| fuel]; [discriminate |].
  cbn [while] in Hloop.
  apply bind_inv in Hloop as (b & wc & Hc & Hk).
  rewrite (and_then_true _ _ _
             (online (Data (status_reply 33 6) :: rest)
                ((t ++ [Sent (control_write 6 0)]) ++ [Sent status_query])))
    in Hc
    by (apply (differs_reply (get_array "status") _ status_query
                 (status_reply 33 6) (status_reply 32 6));
        [reflexivity | reflexivity | simpl; lia]).
  rewrite (and_then_true _ _ _
             (online rest
                (((t ++ [Sent (control_write 6 0)]) ++ [Sent status_query])
                 ++ [Sent status_query])))
    in Hc
    by (apply (differs_reply (get_array "status") _ status_query
                 (status_reply 33 22) (status_reply 33 6));
        [reflexivity | reflexivity | simpl; lia]).
  apply differs_poll_ret in Hc. cbn [trace online] in Hc.
  assert (Gc : forall e, grows (differs poll_status e))
    by (intros e; apply grows_differs, grows_poll_status).
  assert (Gb : grows (print (VStr "Waiting for shutdown...") ;; sleep 1))
    by (apply grows_bind; [| intros _]; apply grows_emit).
  assert (G : extends wc w2).
  { destruct b.
    - revert Hk. apply grows_bind; [exact Gb | intros _].
      apply grows_while; [| exact Gb].
      repeat apply grows_and_then; apply Gc.
    - revert Hk. apply grows_ret. }
  destruct G as [t' Ht']. exists t'.
  rewrite Ht', Hc. now rewrite <- !app_assoc.
Qed.

Lemma set_shutdown_passes_over_second_reply_witness :
  exists t',
    [Sent (control_write 6 0);
     Sent status_query; Sent status_query; Sent status_query;
     Printed (VStr "Waiting for shutdown..."); Slept 1;
     Sent status_query] =
    [] ++ [Sent (control_write 6 0);
           Sent status_query; Sent status_query; Sent status_query] ++ t'.
Proof.
  apply (set_shutdown_passes_over_second_reply 2 (ack control_word 0)
           [Data (status_reply 33 6); Data (status_reply 33 6)] [] VNone
           (online []
              [Sent (control_write 6 0);
               Sent status_query; Sent status_query; Sent status_query;
               Printed (VStr "Waiting for shutdown..."); Slept 1;
               Sent status_query])).
  - unfold short. simpl. lia.
  - reflexivity.
Defined.

(** X2: a value from 0 to 2^31 - 1, encoded by [to_bytes(4, "little")] and read
    by [struct.unpack] behind any nineteen header bytes, comes back
    unchanged. *)
Theorem field_round_trip (v : Z) (hdr : list Z) :
  0 <= v < 2 ^ 31 -> List.length hdr = 19%nat ->
  (b <-- to_bytes v 4 ;;; unpack_register (hdr ++ b)) = Val v.
Proof.
  intros Hv Hh.
  rewrite (to_bytes_val v 4) by (change (256 ^ Z.of_nat 4) with (2 ^ 32); lia).
  cbn [ebind].
  rewrite unpack_register_decoded
    by (rewrite length_app, le_bytes_length, Hh; reflexivity).
  rewrite <- (Z.mod_small v (2 ^ 32)) at 1 by lia.
  f_equal. apply decoded_le_bytes; [exact Hh | lia].
Qed.

Lemma field_round_trip_witness :
  (b <-- to_bytes 50000 4 ;;;
   unpack_register (firstn 19 (register_query [96; 129]) ++ b)) = Val 50000.
Proof.
  apply (field_round_trip 50000 (firstn 19 (register_query [96; 129]))).
  - lia.
  - reflexivity.
Defined.

(** X3: for every negative target, [move] raises [OverflowError] once the mode
    is set and the velocity and the acceleration are written: the target
    frame is never built. *)
Theorem move_rejects_negative_target
  (fuel : nat) (velocity acceleration target_position : Z)
  (r_mode r_velocity r_acceleration : list Z) (other_modes : list (list Z))
  (rest : list rx_event) (t : list action) :
  0 <= velocity < 2 ^ 32 ->
  0 <= acceleration < 2 ^ 32 ->
  target_position < 0 ->
  Forall short [r_mode; r_velocity; r_acceleration] ->
  Forall (fun r => short r /\ r <> mode_display 1) other_modes ->
  (List.length other_modes < fuel)%nat ->
  move fuel velocity acceleration target_position
    (online
       (Data r_mode :: map Data other_modes ++ Data (mode_display 1)
        :: Data r_velocity :: Data r_acceleration :: rest) t) =
  Raise OverflowError
    (online rest
       (t ++ [Sent (mode_write 1)] ++ polled mode_query 1 other_modes
          ++ [Sent (register_write [96; 129] velocity);
              Sent (register_write [96; 131] acceleration)])).
Proof.
  intros Hv Ha Hp Hshort Hmodes Hf1.
  repeat (apply Forall_cons_iff in Hshort as [? Hshort]).
  unfold move.
  rewrite (bind_ret _ _ _ _ _
             (set_mode_returns fuel 1 r_mode other_modes _ t eq_refl
                ltac:(assumption) Hmodes Hf1)).
  evaluated (to_bytes_val velocity 4 Hv).
  evaluated (register_write_frame 96 129 velocity _ eq_refl eq_refl eq_refl).
  exchanged r_velocity.
  evaluated (to_bytes_val acceleration 4 Ha).
  evaluated (register_write_frame 96 131 acceleration _ eq_refl eq_refl eq_refl).
  exchanged r_acceleration.
  unfold bind at 1. rewrite (to_bytes_negative target_position 4 Hp).
  cbn [lift]. unfold polled. now rewrite <- !app_assoc.
Qed.

Lemma move_rejects_negative_target_witness :
  move 1 1000 500 (-12345)
    (device [ack [96; 96] 0; mode_display 1; ack [96; 129] 0; ack [96; 131] 0])
  = Raise OverflowError
      (online []
         [Sent (mode_write 1); Sent mode_query;
          Sent (register_write [96; 129] 1000);
          Sent (register_write [96; 131] 500)]).
Proof.
  apply (move_rejects_negative_target 1 1000 500 (-12345)
           (ack [96; 96] 0) (ack [96; 129] 0) (ack [96; 131] 0) [] [] []).
  - lia.
  - lia.
  - lia.
  - repeat constructor; unfold short; simpl; lia.
  - constructor.
  - simpl; lia.
Defined.

(** X4: [get_status] reads the actual position and the actual velocity with two
    exchanges and returns the two values, decoded as signed four-byte
    little-endian numbers, as a list; it sends nothing else. *)
Theorem get_status_returns_the_pair
  (position_reply velocity_reply : list Z) (rest : list rx_event)
  (t : list action) :
  List.length position_reply = 23%nat ->
  List.length velocity_reply = 23%nat ->
  get_status (online (Data position_reply :: Data velocity_reply :: rest) t) =
  Ret (VInts [decoded position_reply; decoded velocity_reply])
    (online rest
       (t ++ [Sent (register_query [96; 100]);
              Sent (register_query [96; 108])])).
Proof.
  intros Hlp Hlv. unfold get_status.
  rewrite (bind_lift _ _ _ (register_query [96; 100]) eq_refl).
  exchanged position_reply.
  evaluated (unpack_register_decoded _ Hlp).
  rewrite (bind_lift _ _ _ (register_query [96; 108]) eq_refl).
  exchanged velocity_reply.
  evaluated (unpack_register_decoded _ Hlv).
  unfold ret. now rewrite <- app_assoc.
Qed.

Lemma get_status_returns_the_pair_witness :
  get_status
    (device [register_reply [96; 100] (-12345); register_reply [96; 108] 0]) =
  Ret (VInts [-12345; 0])
    (online []
       [Sent (register_query [96; 100]); Sent (register_query [96; 108])]).
Proof.
  apply (get_status_returns_the_pair
           (register_reply [96; 100] (-12345)) (register_reply [96; 108] 0)
           [] []); reflexivity.
Defined.

(** X5: [set_mode] writes the mode and then asks for the mode display until the
    reply is the requested mode, sleeping one second after each other
    reply. *)
Theorem set_mode_polls_the_display
  (fuel : nat) (mode : Z) (r0 : list Z) (waiting : list (list Z))
  (rest : list rx_event) (t : list action) :
  is_byte mode = true -> short r0 ->
  Forall (fun r => short r /\ r <> mode_display mode) waiting ->
  (List.length waiting < fuel)%nat ->
  set_mode fuel mode
    (online (Data r0 :: map Data waiting ++ Data (mode_display mode) :: rest) t) =
  Ret VNone
    (online rest
       (t ++ [Sent (mode_write mode)]
          ++ flat_map (fun _ => [Sent mode_query; Slept 1]) waiting
          ++ [Sent mode_query])).
Proof. exact (set_mode_returns fuel mode r0 waiting rest t). Qed.

Lemma set_mode_polls_the_display_witness :
  set_mode 2 6 (device [ack [96; 96] 0; mode_display 1; mode_display 6]) =
  Ret VNone
    (online []
       [Sent (mode_write 6); Sent mode_query; Slept 1; Sent mode_query]).
Proof.
  apply (set_mode_polls_the_display 2 6 (ack [96; 96] 0) [mode_display 1] [] []).
  - reflexivity.
  - unfold short; simpl; lia.
  - repeat constructor; unfold short; simpl; try lia; discriminate.
  - simpl; lia.
Defined.

(** * More on the codec *)

Lemma forallb_is_byte (l : list Z) :
  forallb is_byte l = true -> Forall (fun x => 0 <= x < 256) l.
Proof.
  intros H. apply Forall_forall. intros x Hx.
  rewrite forallb_forall in H. specialize (H x Hx).
  unfold is_byte in H. apply andb_prop in H as [H0 H1].
  apply Z.leb_le in H0. apply Z.ltb_lt in H1. lia.
Qed.

(** X6: the header fields of a built frame can be read back: byte 9 is the
    mode, bytes 12 and 13 the object index, byte 14 the sub-index, byte 18
    the declared byte count, bytes 7 and 8 are 43 and 13 and the other
    header bytes but the length byte are 0.  Hence two calls that build the
    same frame agree on the mode, the address, the sub-index, the byte count
    and the payload entries other than -1. *)
Theorem frame_fields_read_back (rw a b si dl : Z) (td f : list Z) :
  make_bytearray rw [a; b] si dl td = Val f ->
  (nth 9 f 0 = rw /\ nth 12 f 0 = a /\ nth 13 f 0 = b /\ nth 14 f 0 = si
   /\ nth 18 f 0 = dl /\ nth 7 f 0 = 43 /\ nth 8 f 0 = 13
   /\ firstn 5 f = [0; 0; 0; 0; 0] /\ nth 6 f 0 = 0
   /\ firstn 2 (skipn 10 f) = [0; 0] /\ firstn 3 (skipn 15 f) = [0; 0; 0])
  /\ forall rw' a' b' si' dl' td',
       make_bytearray rw' [a'; b'] si' dl' td' = Val f ->
       rw' = rw /\ a' = a /\ b' = b /\ si' = si /\ dl' = dl
       /\ supplied td' = supplied td.
Proof.
  rewrite make_bytearray_spec.
  destruct (accepted _ _ _ _ _); [| discriminate].
  intros [= <-]. split; [repeat split |].
  intros rw' a' b' si' dl' td'. rewrite make_bytearray_spec.
  destruct (accepted _ _ _ _ _); [| discriminate].
  unfold frame_bytes. cbn [app]. intros [= _ -> -> -> -> -> ->].
  repeat split.
Qed.

Lemma frame_fields_read_back_witness :
  nth 9 (mode_write 6) 0 = 1 /\ nth 12 (mode_write 6) 0 = 96
  /\ nth 13 (mode_write 6) 0 = 96 /\ nth 14 (mode_write 6) 0 = 0
  /\ nth 18 (mode_write 6) 0 = 1.
Proof.
  destruct (frame_fields_read_back 1 96 96 0 1 [6] (mode_write 6) eq_refl)
    as [(H9 & H12 & H13 & H14 & H18 & _) _].
  repeat split; assumption.
Defined.

(** X7: every entry of a built frame is a byte, and the frame has the 17
    fixed header bytes, the bytes of the object index and one byte for every
    payload entry other than -1: 19 bytes for a request of the driver
    without payload, at most 23 with up to four payload bytes. *)
Theorem frame_is_bytes (rw : Z) (oi : list Z) (si dl : Z) (td f : list Z) :
  make_bytearray rw oi si dl td = Val f ->
  Forall (fun x => 0 <= x < 256) f
  /\ List.length f = (17 + List.length oi + List.length (supplied td))%nat
  /\ (List.length oi = 2%nat -> (List.length td <= 4)%nat ->
      (19 <= List.length f <= 23)%nat).
Proof.
  rewrite make_bytearray_spec. unfold accepted.
  destruct (is_byte rw) eqn:Hrw; cbn [andb]; [| discriminate].
  destruct (forallb is_byte oi) eqn:Hoi; cbn [andb]; [| discriminate].
  destruct (is_byte si) eqn:Hsi; cbn [andb]; [| discriminate].
  destruct (is_byte dl) eqn:Hdl; cbn [andb]; [| discriminate].
  destruct (forallb is_byte (supplied td)) eqn:Htd; cbn [andb]; [| discriminate].
  destruct (_ <=? 244)%nat eqn:Hlen; [| discriminate].
  intros [= <-]. apply Nat.leb_le in Hlen.
  assert (Hl : List.length (frame_bytes rw oi si dl (supplied td)) =
               (17 + List.length oi + List.length (supplied td))%nat).
  { unfold frame_bytes. rewrite !length_app. cbn [List.length]. lia. }
  split; [| split; [exact Hl |]].
  - apply forallb_is_byte. unfold frame_bytes.
    rewrite !forallb_app. cbn [forallb].
    rewrite Hrw, Hoi, Hsi, Hdl, Htd. change (is_byte 0) with true.
    change (is_byte 43) with true. change (is_byte 13) with true.
    cbn [andb]. rewrite !andb_true_r. unfold is_byte.
    apply andb_true_intro. split; [apply Z.leb_le | apply Z.ltb_lt]; lia.
  - intros H2 H4. rewrite Hl, H2.
    pose proof (filter_length_le (fun i => negb (i =? -1)) td) as Hf.
    fold (supplied td) in Hf. lia.
Qed.

Lemma frame_is_bytes_witness :
  Forall (fun x => 0 <= x < 256) (register_write [96; 122] 200000)
  /\ List.length (register_write [96; 122] 200000) = 23%nat.
Proof.
  destruct (frame_is_bytes 1 [96; 122] 0 4 [64; 13; 3; 0]
              (register_write [96; 122] 200000) eq_refl) as (Hb & Hl & _).
  split; [exact Hb | exact Hl].
Defined.

(** X8: [get_array] knows four selectors; for every other string - the
    comparison is exact, so also for another spelling of one of the four -
    no branch assigns the result and the call raises [UnboundLocalError]. *)
Theorem get_array_unknown_selector (selector : string) :
  ~ In selector ["status"; "shutdown"; "switch_on"; "enable_operation"] ->
  get_array selector = Exc UnboundLocalError.
Proof.
  intros H. unfold get_array.
  destruct (String.eqb_spec selector "status") as [-> | _];
    [exfalso; apply H; simpl; tauto |].
  destruct (String.eqb_spec selector "shutdown") as [-> | _];
    [exfalso; apply H; simpl; tauto |].
  destruct (String.eqb_spec selector "switch_on") as [-> | _];
    [exfalso; apply H; simpl; tauto |].
  destruct (String.eqb_spec selector "enable_operation") as [-> | _];
    [exfalso; apply H; simpl; tauto |].
  reflexivity.
Qed.

Lemma get_array_unknown_selector_witness :
  get_array "Status" = Exc UnboundLocalError.
Proof.
  apply (get_array_unknown_selector "Status").
  simpl. intros [H | [H | [H | [H | []]]]]; discriminate.
Defined.

(** * The power-state sequence *)

Lemma and_then_false (a b : M bool) (w w1 : world) :
  a w = Ret false w1 -> and_then a b w = Ret false w1.
Proof. unfold and_then, bind. now intros ->. Qed.

(** A status comparison whose reply is not the literal, and one whose reply
    is. *)
Lemma differs_status_other (ex : except (list Z)) (e r : list Z)
  (rest : list rx_event) (t : list action) :
  ex = Val e -> short r -> r <> e ->
  differs poll_status ex (online (Data r :: rest) t) =
  Ret true (online rest (t ++ [Sent status_query])).
Proof.
  intros He Hr Hne. unfold poll_status.
  rewrite (differs_reply (get_array "status") ex status_query e r)
    by (reflexivity || assumption).
  destruct (bytes_eqb r e) eqn:E; [apply bytes_eqb_eq in E; contradiction |].
  reflexivity.
Qed.

Lemma differs_status_same (ex : except (list Z)) (e : list Z)
  (rest : list rx_event) (t : list action) :
  ex = Val e -> short e ->
  differs poll_status ex (online (Data e :: rest) t) =
  Ret false (online rest (t ++ [Sent status_query])).
Proof.
  intros He Hs. unfold poll_status.
  rewrite (differs_reply (get_array "status") ex status_query e e)
    by (reflexivity || assumption).
  now rewrite bytes_eqb_refl.
Qed.

(** The loop shared by [set_shutdown], [set_switch_on] and
    [set_enable_operation]: it ends in the first round in which the reply to
    the first query is the first literal, or the reply to the second the
    second, or the reply to the third the third. *)
Lemma power_poll (ex1 ex2 ex3 : except (list Z)) (e1 e2 e3 : list Z)
  (msg : string) (last : list (list Z)) (rest : list rx_event) :
  ex1 = Val e1 -> ex2 = Val e2 -> ex3 = Val e3 ->
  short e1 -> short e2 -> short e3 ->
  closing_round e1 e2 e3 last ->
  forall (rounds : list (list Z * list Z * list Z)) (fuel : nat)
         (t : list action),
    Forall (failing_round e1 e2 e3) rounds ->
    (List.length rounds < fuel)%nat ->
    while fuel
      (and_then (differs poll_status ex1)
         (and_then (differs poll_status ex2) (differs poll_status ex3)))
      (print (VStr msg) ;; sleep 1)
      (online (map Data (flat_map round_replies rounds) ++ map Data last ++ rest)
         t) =
    Ret tt (online rest (t ++ waited msg rounds last)).
Proof.
  intros H1 H2 H3 S1 S2 S3 Hlast.
  induction rounds as [| [[a b] c] rounds IH]; intros fuel t Hr Hfuel.
  - destruct fuel as [| fuel]; [simpl in Hfuel; lia |].
    unfold waited. cbn [flat_map map app].
    destruct Hlast as [| a Ha Hne | a b Ha Hane Hb Hbne]; cbn [map app].
    + apply while_done. apply and_then_false.
      now apply (differs_status_same ex1 e1).
    + apply while_done.
      rewrite (and_then_true _ _ _ _ (differs_status_other ex1 e1 a _ t H1 Ha Hne)).
      apply and_then_false.
      rewrite (differs_status_same ex2 e2 _ _ H2 S2).
      now rewrite <- app_assoc.
    + apply while_done.
      rewrite (and_then_true _ _ _ _ (differs_status_other ex1 e1 a _ t H1 Ha Hane)).
      rewrite (and_then_true _ _ _ _ (differs_status_other ex2 e2 b _ _ H2 Hb Hbne)).
      rewrite (differs_status_same ex3 e3 _ _ H3 S3).
      now rewrite <- !app_assoc.
  - destruct fuel as [| fuel]; [simpl in Hfuel; lia |].
    apply Forall_cons_iff in Hr as [(Ha & Hane & Hb & Hbne & Hc & Hcne) Hr].
    cbn [flat_map round_replies map app].
    rewrite (while_continue fuel _ _ _
               (online (map Data (flat_map round_replies rounds)
                        ++ map Data last ++ rest)
                  (((t ++ [Sent status_query]) ++ [Sent status_query])
                   ++ [Sent status_query]))
               (online (map Data (flat_map round_replies rounds)
                        ++ map Data last ++ rest)
                  (((((t ++ [Sent status_query]) ++ [Sent status_query])
                      ++ [Sent status_query]) ++ [Printed (VStr msg)])
                   ++ [Slept 1]))).
    + rewrite IH; [| assumption | simpl in Hfuel; lia].
      unfold waited. cbn [flat_map]. now rewrite <- !app_assoc.
    + rewrite (and_then_true _ _ _ _ (differs_status_other ex1 e1 a _ t H1 Ha Hane)).
      rewrite (and_then_true _ _ _ _ (differs_status_other ex2 e2 b _ _ H2 Hb Hbne)).
      now apply (differs_status_other ex3 e3 c).
    + reflexivity.
Qed.

Lemma set_shutdown_run (fuel : nat) (r0 : list Z)
  (rounds : list (list Z * list Z * list Z)) (last : list (list Z))
  (rest : list rx_event) (t : list action) :
  short r0 ->
  Forall (failing_round (status_reply 33 6) (status_reply 33 22)
            (status_reply 33 2)) rounds ->
  closing_round (status_reply 33 6) (status_reply 33 22) (status_reply 33 2)
    last ->
  (List.length rounds < fuel)%nat ->
  set_shutdown fuel (online (power_stream r0 rounds last ++ rest) t) =
  Ret VNone
    (online rest
       (t ++ [Sent (control_write 6 0)]
          ++ waited "Waiting for shutdown..." rounds last)).
Proof.
  intros Hr0 Hrounds Hlast Hfuel. unfold set_shutdown, power_stream.
  cbn [app]. rewrite <- app_assoc.
  rewrite (bind_lift _ _ _ (control_write 6 0) eq_refl).
  exchanged r0.
  rewrite (bind_lift _ _ _ (status_reply 33 6) eq_refl).
  rewrite (bind_lift _ _ _ (status_reply 33 22) eq_refl).
  rewrite (bind_lift _ _ _ (status_reply 33 2) eq_refl).
  rewrite (bind_ret _ _ _ _ _
             (power_poll _ _ _ (status_reply 33 6) (status_reply 33 22)
                (status_reply 33 2) "Waiting for shutdown..." last rest
                eq_refl eq_refl eq_refl
                ltac:(unfold short; simpl; lia) ltac:(unfold short; simpl; lia)
                ltac:(unfold short; simpl; lia)
                Hlast rounds fuel _ Hrounds Hfuel)).
  unfold ret. now rewrite <- app_assoc.
Qed.

Lemma set_switch_on_run (fuel : nat) (r0 : list Z)
  (rounds : list (list Z * list Z * list Z)) (last : list (list Z))
  (rest : list rx_event) (t : list action) :
  short r0 ->
  Forall (failing_round (status_reply 35 6) (status_reply 35 22)
            (status_reply 35 2)) rounds ->
  closing_round (status_reply 35 6) (status_reply 35 22) (status_reply 35 2)
    last ->
  (List.length rounds < fuel)%nat ->
  set_switch_on fuel (online (power_stream r0 rounds last ++ rest) t) =
  Ret VNone
    (online rest
       (t ++ [Sent (control_write 7 0)]
          ++ waited "Waiting for switch-on..." rounds last)).
Proof.
  intros Hr0 Hrounds Hlast Hfuel. unfold set_switch_on, power_stream.
  cbn [app]. rewrite <- app_assoc.
  rewrite (bind_lift _ _ _ (control_write 7 0) eq_refl).
  exchanged r0.
  rewrite (bind_ret _ _ _ _ _
             (power_poll _ _ _ (status_reply 35 6) (status_reply 35 22)
                (status_reply 35 2) "Waiting for switch-on..." last rest
                eq_refl eq_refl eq_refl
                ltac:(unfold short; simpl; lia) ltac:(unfold short; simpl; lia)
                ltac:(unfold short; simpl; lia)
                Hlast rounds fuel _ Hrounds Hfuel)).
  unfold ret. now rewrite <- app_assoc.
Qed.

Lemma set_enable_operation_run (fuel : nat) (r0 : list Z)
  (rounds : list (list Z * list Z * list Z)) (last : list (list Z))
  (rest : list rx_event) (t : list action) :
  short r0 ->
  Forall (failing_round (status_reply 39 6) (status_reply 39 22)
            (status_reply 39 2)) rounds ->
  closing_round (status_reply 39 6) (status_reply 39 22) (status_reply 39 2)
    last ->
  (List.length rounds < fuel)%nat ->
  set_enable_operation fuel (online (power_stream r0 rounds last ++ rest) t) =
  Ret VNone
    (online rest
       (t ++ [Sent (control_write 15 0)]
          ++ waited "Waiting for enabling operation..." rounds last)).
Proof.
  intros Hr0 Hrounds Hlast Hfuel. unfold set_enable_operation, power_stream.
  cbn [app]. rewrite <- app_assoc.
  rewrite (bind_lift _ _ _ (control_write 15 0) eq_refl).
  exchanged r0.
  rewrite (bind_ret _ _ _ _ _
             (power_poll _ _ _ (status_reply 39 6) (status_reply 39 22)
                (status_reply 39 2) "Waiting for enabling operation..." last rest
                eq_refl eq_refl eq_refl
                ltac:(unfold short; simpl; lia) ltac:(unfold short; simpl; lia)
                ltac:(unfold short; simpl; lia)
                Hlast rounds fuel _ Hrounds Hfuel)).
  unfold ret. now rewrite <- app_assoc.
Qed.

(** X9: the runs of [set_shutdown] that return.  After the shutdown write,
    every round that fails takes three status replies - the first not
    0x0621, the second not 0x1621, the third not 0x0221 - and costs three
    queries, a message and a sleep of one second; the call returns None in
    the first round in which the reply to the first query is 0x0621, or the
    reply to the second is 0x1621, or the reply to the third is 0x0221,
    with one, two or three queries in that round. *)
Theorem set_shutdown_rounds (fuel : nat) (r0 : list Z)
  (rounds : list (list Z * list Z * list Z)) (last : list (list Z))
  (rest : list rx_event) (t : list action) :
  short r0 ->
  Forall (failing_round (status_reply 33 6) (status_reply 33 22)
            (status_reply 33 2)) rounds ->
  closing_round (status_reply 33 6) (status_reply 33 22) (status_reply 33 2)
    last ->
  (List.length rounds < fuel)%nat ->
  set_shutdown fuel (online (power_stream r0 rounds last ++ rest) t) =
  Ret VNone
    (online rest
       (t ++ [Sent (control_write 6 0)]
          ++ waited "Waiting for shutdown..." rounds last)).
Proof. exact (set_shutdown_run fuel r0 rounds last rest t). Qed.

Lemma set_shutdown_rounds_witness :
  set_shutdown 2
    (device [ack control_word 0;
             status_reply 32 6; status_reply 33 6; status_reply 33 6;
             status_reply 49 6; status_reply 33 22]) =
  Ret VNone
    (online []
       [Sent (control_write 6 0);
        Sent status_query; Sent status_query; Sent status_query;
        Printed (VStr "Waiting for shutdown..."); Slept 1;
        Sent status_query; Sent status_query]).
Proof.
  apply (set_shutdown_rounds 2 (ack control_word 0)
           [(status_reply 32 6, status_reply 33 6, status_reply 33 6)]
           [status_reply 49 6; status_reply 33 22] [] []).
  - unfold short; simpl; lia.
  - repeat constructor; unfold short; simpl; try lia; discriminate.
  - constructor; [unfold short; simpl; lia | discriminate].
  - simpl; lia.
Defined.

(** X10: the runs of [set_switch_on] that return: the switch-on write, then
    rounds of three status queries, a message and a sleep of one second
    while no reply is the literal of its place; None as soon as the first
    reply of a round is 0x0623, or the second 0x1623, or the third
    0x0223. *)
Theorem set_switch_on_rounds (fuel : nat) (r0 : list Z)
  (rounds : list (list Z * list Z * list Z)) (last : list (list Z))
  (rest : list rx_event) (t : list action) :
  short r0 ->
  Forall (failing_round (status_reply 35 6) (status_reply 35 22)
            (status_reply 35 2)) rounds ->
  closing_round (status_reply 35 6) (status_reply 35 22) (status_reply 35 2)
    last ->
  (List.length rounds < fuel)%nat ->
  set_switch_on fuel (online (power_stream r0 rounds last ++ rest) t) =
  Ret VNone
    (online rest
       (t ++ [Sent (control_write 7 0)]
          ++ waited "Waiting for switch-on..." rounds last)).
Proof. exact (set_switch_on_run fuel r0 rounds last rest t). Qed.

Lemma set_switch_on_rounds_witness :
  set_switch_on 1
    (device [ack control_word 0; status_reply 33 6; status_reply 33 6;
             status_reply 35 2]) =
  Ret VNone
    (online []
       [Sent (control_write 7 0);
        Sent status_query; Sent status_query; Sent status_query]).
Proof.
  apply (set_switch_on_rounds 1 (ack control_word 0) []
           [status_reply 33 6; status_reply 33 6; status_reply 35 2] [] []).
  - unfold short; simpl; lia.
  - constructor.
  - constructor; (unfold short; simpl; lia) || discriminate.
  - simpl; lia.
Defined.

(** X11: the runs of [set_enable_operation] that return: the
    enable-operation write, then rounds of three status queries, a message
    and a sleep of one second while no reply is the literal of its place;
    None as soon as the first reply of a round is 0x0627, or the second
    0x1627, or the third 0x0227. *)
Theorem set_enable_operation_rounds (fuel : nat) (r0 : list Z)
  (rounds : list (list Z * list Z * list Z)) (last : list (list Z))
  (rest : list rx_event) (t : list action) :
  short r0 ->
  Forall (failing_round (status_reply 39 6) (status_reply 39 22)
            (status_reply 39 2)) rounds ->
  closing_round (status_reply 39 6) (status_reply 39 22) (status_reply 39 2)
    last ->
  (List.length rounds < fuel)%nat ->
  set_enable_operation fuel (online (power_stream r0 rounds last ++ rest) t) =
  Ret VNone
    (online rest
       (t ++ [Sent (control_write 15 0)]
          ++ waited "Waiting for enabling operation..." rounds last)).
Proof. exact (set_enable_operation_run fuel r0 rounds last rest t). Qed.

Lemma set_enable_operation_rounds_witness :
  set_enable_operation 1
    (device [ack control_word 0; status_reply 35 6; status_reply 39 22]) =
  Ret VNone
    (online []
       [Sent (control_write 15 0); Sent status_query; Sent status_query]).
Proof.
  apply (set_enable_operation_rounds 1 (ack control_word 0) []
           [status_reply 35 6; status_reply 39 22] [] []).
  - unfold short; simpl; lia.
  - constructor.
  - constructor; (unfold short; simpl; lia) || discriminate.
  - simpl; lia.
Defined.

(** X12: [init] is the three transitions in a row on one connection:
    against a device that lets each of them end, it sends the shutdown
    write and its polls, then the switch-on write and its polls, then the
    enable-operation write and its polls, and returns None with the rest of
    the stream unread. *)
Theorem init_runs_the_three_transitions (fuel : nat) (r1 r2 r3 : list Z)
  (rounds1 rounds2 rounds3 : list (list Z * list Z * list Z))
  (last1 last2 last3 : list (list Z))
  (rest : list rx_event) (t : list action) :
  short r1 -> short r2 -> short r3 ->
  Forall (failing_round (status_reply 33 6) (status_reply 33 22)
            (status_reply 33 2)) rounds1 ->
  Forall (failing_round (status_reply 35 6) (status_reply 35 22)
            (status_reply 35 2)) rounds2 ->
  Forall (failing_round (status_reply 39 6) (status_reply 39 22)
            (status_reply 39 2)) rounds3 ->
  closing_round (status_reply 33 6) (status_reply 33 22) (status_reply 33 2)
    last1 ->
  closing_round (status_reply 35 6) (status_reply 35 22) (status_reply 35 2)
    last2 ->
  closing_round (status_reply 39 6) (status_reply 39 22) (status_reply 39 2)
    last3 ->
  (List.length rounds1 < fuel)%nat ->
  (List.length rounds2 < fuel)%nat ->
  (List.length rounds3 < fuel)%nat ->
  init fuel
    (online (power_stream r1 rounds1 last1 ++ power_stream r2 rounds2 last2
             ++ power_stream r3 rounds3 last3 ++ rest) t) =
  Ret VNone
    (online rest
       (t ++ [Sent (control_write 6 0)]
          ++ waited "Waiting for shutdown..." rounds1 last1
          ++ [Sent (control_write 7 0)]
          ++ waited "Waiting for switch-on..." rounds2 last2
          ++ [Sent (control_write 15 0)]
          ++ waited "Waiting for enabling operation..." rounds3 last3)).
Proof.
  intros S1 S2 S3 F1 F2 F3 C1 C2 C3 L1 L2 L3. unfold init.
  rewrite (bind_ret _ _ _ _ _ (set_shutdown_run fuel r1 rounds1 last1 _ t S1 F1 C1 L1)).
  rewrite (bind_ret _ _ _ _ _ (set_switch_on_run fuel r2 rounds2 last2 _ _ S2 F2 C2 L2)).
  rewrite (bind_ret _ _ _ _ _ (set_enable_operation_run fuel r3 rounds3 last3 _ _ S3 F3 C3 L3)).
  unfold ret. now rewrite <- !app_assoc.
Qed.

Lemma init_runs_the_three_transitions_witness :
  init 1
    (device [ack control_word 0; status_reply 33 6;
             ack control_word 0; status_reply 35 6;
             ack control_word 0; status_reply 39 6]) =
  Ret VNone
    (online []
       [Sent (control_write 6 0); Sent status_query;
        Sent (control_write 7 0); Sent status_query;
        Sent (control_write 15 0); Sent status_query]).
Proof.
  apply (init_runs_the_three_transitions 1
           (ack control_word 0) (ack control_word 0) (ack control_word 0)
           [] [] [] [status_reply 33 6] [status_reply 35 6] [status_reply 39 6]
           [] []);
    try (unfold short; simpl; lia); constructor.
Defined.

(** * Feed rate and homing *)

(** The frame built from the first two of the four bytes of [v]. *)
Lemma word_write_frame (a b si v : Z) (bs : list Z) :
  is_byte a = true -> is_byte b = true -> is_byte si = true ->
  bs = le_bytes 4 v ->
  make_bytearray 1 [a; b] si 2 [byte_at bs 0; byte_at bs 1] =
  Val (word_write [a; b] si v).
Proof.
  intros Ha Hb Hsi ->.
  change [byte_at (le_bytes 4 v) 0; byte_at (le_bytes 4 v) 1]
    with (le_bytes 2 v).
  apply make_bytearray_bytes; try reflexivity; try assumption.
  - cbn [forallb]. now rewrite Ha, Hb.
  - apply le_bytes_bytes.
  - rewrite le_bytes_length. simpl. lia.
Qed.

Lemma le_bytes_2_mod (v : Z) : le_bytes 2 (v mod 65536) = le_bytes 2 v.
Proof.
  cbn [le_bytes]. change 65536 with (256 * 256).
  rewrite Z.rem_mul_r by lia.
  pose proof (Z.mod_pos_bound v 256 ltac:(lia)) as Hx.
  pose proof (Z.mod_pos_bound (v / 256) 256 ltac:(lia)) as Hy.
  set (x := v mod 256) in *. set (y := (v / 256) mod 256) in *.
  assert (E1 : (x + 256 * y) mod 256 = x).
  { rewrite Z.mul_comm, Z_mod_plus_full. apply Z.mod_small; lia. }
  assert (E2 : (x + 256 * y) / 256 = y).
  { rewrite Z.mul_comm, Z.div_add by lia.
    rewrite (Z.div_small x 256) by lia. lia. }
  rewrite E1, E2, (Z.mod_small y 256) by lia. reflexivity.
Qed.

Lemma set_feedrate_run (feedrate : Z) (r1 r2 : list Z)
  (rest : list rx_event) (t : list action) :
  0 <= feedrate < 2 ^ 32 -> short r1 -> short r2 ->
  set_feedrate feedrate (online (Data r1 :: Data r2 :: rest) t) =
  Ret VNone
    (online rest
       (t ++ [Sent (word_write [96; 146] 1 feedrate);
              Sent (frame_bytes WRITE [96; 146] 2 1 [1])])).
Proof.
  intros Hf H1 H2. unfold set_feedrate.
  evaluated (to_bytes_val feedrate 4 Hf).
  evaluated (word_write_frame 96 146 1 feedrate _ eq_refl eq_refl eq_refl eq_refl).
  exchanged r1.
  rewrite (bind_lift _ _ _ (frame_bytes WRITE [96; 146] 2 1 [1]) eq_refl).
  exchanged r2.
  unfold ret. now rewrite <- app_assoc.
Qed.

(** X13: [set_feedrate] sends two frames and nothing else: a two-byte write
    of the feed rate to sub-index 1 of object 0x6092, then a one-byte write
    of 1 to sub-index 2.  Only the low 16 bits of the feed rate go out:
    every feed rate from 0 to 2^32 - 1 behaves exactly like its remainder
    modulo 65536. *)
Theorem set_feedrate_sends_low_word (feedrate : Z) :
  0 <= feedrate < 2 ^ 32 ->
  (forall (r1 r2 : list Z) (rest : list rx_event) (t : list action),
     short r1 -> short r2 ->
     set_feedrate feedrate (online (Data r1 :: Data r2 :: rest) t) =
     Ret VNone
       (online rest
          (t ++ [Sent (word_write [96; 146] 1 feedrate);
                 Sent (frame_bytes WRITE [96; 146] 2 1 [1])])))
  /\ forall w : world,
       set_feedrate feedrate w = set_feedrate (feedrate mod 65536) w.
Proof.
  intros Hf. split.
  - intros r1 r2 rest t H1 H2. now apply set_feedrate_run.
  - intros w. unfold set_feedrate.
    pose proof (Z.mod_pos_bound feedrate 65536 ltac:(lia)) as Hm.
    evaluated (to_bytes_val feedrate 4 Hf).
    evaluated (word_write_frame 96 146 1 feedrate _ eq_refl eq_refl eq_refl eq_refl).
    evaluated (to_bytes_val (feedrate mod 65536) 4 ltac:(lia)).
    evaluated (word_write_frame 96 146 1 (feedrate mod 65536) _
                 eq_refl eq_refl eq_refl eq_refl).
    unfold word_write. now rewrite le_bytes_2_mod.
Qed.

Lemma set_feedrate_sends_low_word_witness :
  set_feedrate 71536 (device [ack [96; 146] 1; ack [96; 146] 2]) =
  Ret VNone
    (online []
       [Sent (word_write [96; 146] 1 6000);
        Sent (frame_bytes WRITE [96; 146] 2 1 [1])]).
Proof.
  apply (proj1 (set_feedrate_sends_low_word 71536 ltac:(lia))
           (ack [96; 146] 1) (ack [96; 146] 2) [] []);
    unfold short; simpl; lia.
Defined.

(** X14: a feed rate below 0 or above 2^32 - 1 makes [set_feedrate] raise
    [OverflowError] at once: no frame is sent and the driver is as it
    was. *)
Theorem set_feedrate_out_of_range (feedrate : Z) (w : world) :
  feedrate < 0 \/ 2 ^ 32 <= feedrate ->
  set_feedrate feedrate w = Raise OverflowError w.
Proof.
  intros H. unfold set_feedrate, bind, lift, to_bytes.
  change (256 ^ Z.of_nat 4) with (2 ^ 32).
  destruct H as [H | H].
  - now replace (feedrate <? 0) with true by (symmetry; apply Z.ltb_lt; lia).
  - replace (2 ^ 32 <=? feedrate) with true by (symmetry; apply Z.leb_le; lia).
    now rewrite orb_true_r.
Qed.

Lemma set_feedrate_out_of_range_witness :
  set_feedrate (-1) (device [ack [96; 146] 1]) =
  Raise OverflowError (device [ack [96; 146] 1]).
Proof.
  apply (set_feedrate_out_of_range (-1)). left. lia.
Defined.

Lemma poll_status_reply (r : list Z) (rest : list rx_event) (t : list action) :
  short r ->
  poll_status (online (Data r :: rest) t) =
  Ret r (online rest (t ++ [Sent status_query])).
Proof.
  intros Hr. unfold poll_status.
  rewrite (bind_lift _ _ _ status_query eq_refl). now apply send_command_reply.
Qed.

(** The waiting loop of [set_homing]. *)
Lemma homing_wait (rest : list rx_event) :
  forall (rounds : list (list Z * list Z)) (fuel : nat) (t : list action),
    Forall homing_round rounds ->
    (List.length rounds < fuel)%nat ->
    while fuel
      (differs poll_status (make_bytearray 0 [96; 65] 0 2 [39; 22]))
      (print (VStr "wait for Homing to end") ;;
       r <- poll_status ;;
       print (VInts r) ;;
       sleep 1)
      (online (map Data (flat_map homing_replies rounds)
               ++ Data (status_reply 39 22) :: rest) t) =
    Ret tt (online rest (t ++ homing_waited rounds)).
Proof.
  induction rounds as [| [s p] rounds IH]; intros fuel t Hr Hfuel.
  - destruct fuel as [| fuel]; [simpl in Hfuel; lia |].
    apply while_done. cbn [flat_map map app].
    apply (differs_status_same _ (status_reply 39 22)); [reflexivity |].
    unfold short; simpl; lia.
  - destruct fuel as [| fuel]; [simpl in Hfuel; lia |].
    apply Forall_cons_iff in Hr as [(Hs & Hne & Hp) Hr].
    cbn [flat_map homing_replies map app].
    rewrite (while_continue fuel _ _ _
               (online (Data p :: map Data (flat_map homing_replies rounds)
                        ++ Data (status_reply 39 22) :: rest)
                  (t ++ [Sent status_query]))
               (online (map Data (flat_map homing_replies rounds)
                        ++ Data (status_reply 39 22) :: rest)
                  (((((t ++ [Sent status_query])
                      ++ [Printed (VStr "wait for Homing to end")])
                     ++ [Sent status_query]) ++ [Printed (VInts p)])
                   ++ [Slept 1]))).
    + rewrite IH; [| assumption | simpl in Hfuel; lia].
      unfold homing_waited. cbn [flat_map snd]. now rewrite <- !app_assoc.
    + now apply (differs_status_other _ (status_reply 39 22) s).
    + rewrite (bind_ret _ _ _ _ _ (print_online _ _ _)).
      rewrite (bind_ret _ _ _ _ _ (poll_status_reply p _ _ Hp)).
      rewrite (bind_ret _ _ _ _ _ (print_online _ _ _)).
      reflexivity.
Qed.

Lemma methods_codes (method : string) (code : Z) :
  getitem methods method = Val code ->
  In (method, code) methods /\ is_byte code = true.
Proof.
  unfold methods. cbn [getitem].
  repeat match goal with
         | |- context [String.eqb ?k method] =>
             destruct (String.eqb_spec k method) as [<- | _];
             [intros [= <-]; split; [simpl; tauto | reflexivity] |]
         end.
  discriminate.
Qed.

(** X15: a run of [set_homing] with a method of the table.  Once the device
    shows mode 6, the driver writes the method's code to sub-index 1 of
    object 0x6098, sets the feed rate 6000, writes the low 16 bits of the
    search velocity, of the zeroing velocity and of the acceleration as
    two-byte fields, writes the control word 0x001F, prints the reply, and
    writes 0x000F.  Every round of the wait then takes two status replies -
    one compared with 0x1627, one only printed - and sleeps one second; at
    the first compared reply that is 0x1627 the driver re-issues
    enable-operation and returns None. *)
Theorem set_homing_run (fuel : nat) (method : string) (code : Z)
  (find_velocity zero_velocity acceleration : Z)
  (a_mode a_method a_feed a_apply a_find a_zero a_acc a_start a_reset a_enable
     : list Z)
  (modes : list (list Z)) (rounds : list (list Z * list Z))
  (rest : list rx_event) (t : list action) :
  getitem methods method = Val code ->
  0 <= find_velocity < 2 ^ 32 ->
  0 <= zero_velocity < 2 ^ 32 ->
  0 <= acceleration < 2 ^ 32 ->
  Forall short [a_mode; a_method; a_feed; a_apply; a_find; a_zero; a_acc;
                a_start; a_reset; a_enable] ->
  Forall (fun r => short r /\ r <> mode_display 6) modes ->
  Forall homing_round rounds ->
  (List.length modes < fuel)%nat ->
  (List.length rounds < fuel)%nat ->
  set_homing fuel method find_velocity zero_velocity acceleration
    (online
       (Data a_mode :: map Data modes ++ Data (mode_display 6)
        :: Data a_method :: Data a_feed :: Data a_apply
        :: Data a_find :: Data a_zero :: Data a_acc
        :: Data a_start :: Data a_reset
        :: map Data (flat_map homing_replies rounds)
           ++ Data (status_reply 39 22) :: Data a_enable :: rest) t) =
  Ret VNone
    (online rest
       (t ++ [Sent (mode_write 6)] ++ polled mode_query 1 modes
          ++ [Sent (frame_bytes WRITE [96; 152] 1 1 [code]);
              Sent (word_write [96; 146] 1 6000);
              Sent (frame_bytes WRITE [96; 146] 2 1 [1]);
              Sent (word_write [96; 153] 1 find_velocity);
              Sent (word_write [96; 153] 2 zero_velocity);
              Sent (word_write [96; 154] 0 acceleration);
              Sent (control_write 31 0);
              Printed (VInts a_start);
              Sent (control_write 15 0)]
          ++ homing_waited rounds
          ++ [Sent (control_write 15 0)])).
Proof.
  intros Hm Hfv Hzv Hacc Hshort Hmodes Hrounds Hf1 Hf2.
  repeat (apply Forall_cons_iff in Hshort as [? Hshort]).
  destruct (methods_codes method code Hm) as [_ Hcode].
  unfold set_homing.
  rewrite (bind_ret _ _ _ _ _
             (set_mode_returns fuel 6 a_mode modes _ t eq_refl
                ltac:(assumption) Hmodes Hf1)).
  evaluated Hm.
  rewrite (bind_lift _ _ _ (frame_bytes WRITE [96; 152] 1 1 [code])
             (make_bytearray_bytes 1 [96; 152] 1 1 [code] eq_refl eq_refl
                eq_refl eq_refl
                ltac:(cbn [forallb]; now rewrite Hcode)
                ltac:(simpl; lia))).
  exchanged a_method.
  rewrite (bind_ret _ _ _ _ _
             (set_feedrate_run 6000 a_feed a_apply _ _ ltac:(lia)
                ltac:(assumption) ltac:(assumption))).
  evaluated (to_bytes_val find_velocity 4 Hfv).
  evaluated (word_write_frame 96 153 1 find_velocity _
               eq_refl eq_refl eq_refl eq_refl).
  exchanged a_find.
  evaluated (to_bytes_val zero_velocity 4 Hzv).
  evaluated (word_write_frame 96 153 2 zero_velocity _
               eq_refl eq_refl eq_refl eq_refl).
  exchanged a_zero.
  evaluated (to_bytes_val acceleration 4 Hacc).
  evaluated (word_write_frame 96 154 0 acceleration _
               eq_refl eq_refl eq_refl eq_refl).
  exchanged a_acc.
  rewrite (bind_lift _ _ _ (control_write 31 0) eq_refl).
  exchanged a_start.
  rewrite (bind_ret _ _ _ _ _ (print_online _ _ _)).
  rewrite (bind_lift _ _ _ (control_write 15 0) eq_refl).
  exchanged a_reset.
  rewrite (bind_ret _ _ _ _ _ (homing_wait _ rounds fuel _ Hrounds Hf2)).
  rewrite (bind_lift _ _ _ (control_write 15 0) eq_refl).
  exchanged a_enable.
  unfold ret, polled. cbn [sock trace].
  repeat rewrite <- app_assoc. reflexivity.
Qed.

Lemma set_homing_run_witness :
  set_homing 2 "LSN" 70000 500 100
    (device [ack [96; 96] 0; mode_display 6;
             ack [96; 152] 1; ack [96; 146] 1; ack [96; 146] 2;
             ack [96; 153] 1; ack [96; 153] 2; ack [96; 154] 0;
             ack control_word 0; ack control_word 0;
             status_reply 39 2; status_reply 39 22;
             status_reply 39 22; ack control_word 0]) =
  Ret VNone
    (online []
       [Sent (mode_write 6); Sent mode_query;
        Sent (frame_bytes WRITE [96; 152] 1 1 [17]);
        Sent (word_write [96; 146] 1 6000);
        Sent (frame_bytes WRITE [96; 146] 2 1 [1]);
        Sent (word_write [96; 153] 1 4464);
        Sent (word_write [96; 153] 2 500);
        Sent (word_write [96; 154] 0 100);
        Sent (control_write 31 0);
        Printed (VInts (ack control_word 0));
        Sent (control_write 15 0);
        Sent status_query;
        Printed (VStr "wait for Homing to end");
        Sent status_query;
        Printed (VInts (status_reply 39 22));
        Slept 1;
        Sent status_query;
        Sent (control_write 15 0)]).
Proof.
  apply (set_homing_run 2 "LSN" 17 70000 500 100
           (ack [96; 96] 0) (ack [96; 152] 1) (ack [96; 146] 1)
           (ack [96; 146] 2) (ack [96; 153] 1) (ack [96; 153] 2)
           (ack [96; 154] 0) (ack control_word 0) (ack control_word 0)
           (ack control_word 0)
           [] [(status_reply 39 2, status_reply 39 22)] [] []).
  - reflexivity.
  - lia.
  - lia.
  - lia.
  - repeat constructor; unfold short; simpl; lia.
  - constructor.
  - repeat constructor; unfold short; simpl; try lia; discriminate.
  - simpl; lia.
  - simpl; lia.
Defined.

(** * Reading registers back *)

(** X16: [get_status] accepts only a position reply of exactly 23 bytes.
    For every other reply - shorter, or the 24 bytes one [recv] can hold, or
    longer and cut at 24 - [struct.unpack] raises [struct.error] after the
    position query has gone out; the velocity is never asked for. *)
Theorem get_status_needs_23_bytes (reply : list Z) (rest : list rx_event)
  (t : list action) :
  List.length reply <> 23%nat ->
  exists w' : world,
    get_status (online (Data reply :: rest) t) = Raise StructError w'
    /\ trace w' = t ++ [Sent (register_query [96; 100])].
Proof.
  intros Hlen. unfold get_status.
  rewrite (bind_lift _ _ _ (register_query [96; 100]) eq_refl).
  unfold bind at 1. rewrite send_command_cases.
  cbn [sock online connected stream negb].
  assert (E : unpack_register (firstn 24 reply) = Exc StructError).
  { unfold unpack_register, unpack_pad_i.
    destruct (Nat.eqb_spec (List.length (firstn 24 reply)) (19 + 4)) as [H |];
      [| reflexivity].
    exfalso. rewrite length_firstn in H. lia. }
  unfold bind at 1, lift. rewrite E.
  eexists. split; reflexivity.
Qed.

Lemma get_status_needs_23_bytes_witness :
  exists w' : world,
    get_status
      (online [Data (register_reply [96; 100] 200000 ++ [0])] []) =
    Raise StructError w'
    /\ trace w' = [] ++ [Sent (register_query [96; 100])].
Proof.
  apply (get_status_needs_23_bytes (register_reply [96; 100] 200000 ++ [0]) []
           []).
  simpl. lia.
Defined.

(** X17: the four-byte fields are written unsigned and read signed.  A
    value from 2^31 to 2^32 - 1 is accepted by [to_bytes(4, "little")], and
    [struct.unpack] reads the same four bytes as that value minus 2^32. *)
Theorem field_high_values_read_negative (v : Z) (hdr : list Z) :
  2 ^ 31 <= v < 2 ^ 32 -> List.length hdr = 19%nat ->
  (b <-- to_bytes v 4 ;;; unpack_register (hdr ++ b)) = Val (v - 2 ^ 32).
Proof.
  intros Hv Hh.
  rewrite (to_bytes_val v 4) by (change (256 ^ Z.of_nat 4) with (2 ^ 32); lia).
  cbn [ebind].
  rewrite unpack_register_decoded
    by (rewrite length_app, le_bytes_length, Hh; reflexivity).
  f_equal.
  replace v with ((v - 2 ^ 32) mod 2 ^ 32) at 1
    by (symmetry; apply Z.mod_unique with (q := -1); lia).
  apply decoded_le_bytes; [exact Hh | lia].
Qed.

Lemma field_high_values_read_negative_witness :
  (b <-- to_bytes 4294954951 4 ;;;
   unpack_register (firstn 19 (register_query [96; 100]) ++ b)) = Val (-12345).
Proof.
  apply (field_high_values_read_negative 4294954951
           (firstn 19 (register_query [96; 100]))).
  - lia.
  - reflexivity.
Defined.

(** * Staggered moves *)






(** * A driver that cannot talk, and the end of the connection *)

Lemma bind_raise {A B} (m : M A) (k : A -> M B) (w w' : world) (e : exn) :
  m w = Raise e w' -> (x <- m ;; k x) w = Raise e w'.
Proof. unfold bind. now intros ->. Qed.

Lemma send_command_offline (data : list Z) (w : world) (e : exn) :
  offline w = Some e -> send_command data w = Raise e w.
Proof.
  unfold offline. rewrite send_command_cases.
  destruct (sock w) as [[[|] st] |]; cbn [connected negb];
    intros [= <-]; reflexivity.
Qed.

(** X19: on a driver that has no socket, or whose socket never got
    connected, every method that talks to the device raises at its first
    frame - [AttributeError] without a socket, the socket's error otherwise
    - before anything is sent, slept or printed: the driver is left exactly
    as it was, however much the loops would be allowed to turn. *)
Theorem offline_driver_raises_at_once (fuel : nat) (w : world) (e : exn) :
  offline w = Some e ->
  set_shutdown fuel w = Raise e w
  /\ set_switch_on fuel w = Raise e w
  /\ set_enable_operation fuel w = Raise e w
  /\ init fuel w = Raise e w
  /\ (forall mode, is_byte mode = true -> set_mode fuel mode w = Raise e w)
  /\ (forall feedrate, 0 <= feedrate < 2 ^ 32 ->
        set_feedrate feedrate w = Raise e w)
  /\ (forall method find_velocity zero_velocity acceleration,
        set_homing fuel method find_velocity zero_velocity acceleration w =
        Raise e w)
  /\ (forall velocity acceleration target_position,
        move fuel velocity acceleration target_position w = Raise e w)
  /\ (forall velocity acceleration start_position iterations step_width
             wait_time go_back,
        staggered_move fuel velocity acceleration start_position iterations
          step_width wait_time go_back w = Raise e w)
  /\ get_status w = Raise e w.
Proof.
  intros H.
  assert (Hsend : forall data, send_command data w = Raise e w)
    by (intros data; now apply send_command_offline).
  assert (Hmode : forall mode, is_byte mode = true ->
                               set_mode fuel mode w = Raise e w).
  { intros mode Hm. unfold set_mode.
    rewrite (bind_lift _ _ _ (mode_write mode)
               (make_bytearray_bytes 1 [96; 96] 0 1 [mode] eq_refl eq_refl
                  eq_refl eq_refl ltac:(cbn [forallb]; now rewrite Hm)
                  ltac:(simpl; lia))).
    apply bind_raise, Hsend. }
  assert (Hshut : set_shutdown fuel w = Raise e w).
  { unfold set_shutdown.
    rewrite (bind_lift _ _ _ (control_write 6 0) eq_refl).
    apply bind_raise, Hsend. }
  repeat split.
  - exact Hshut.
  - unfold set_switch_on.
    rewrite (bind_lift _ _ _ (control_write 7 0) eq_refl).
    apply bind_raise, Hsend.
  - unfold set_enable_operation.
    rewrite (bind_lift _ _ _ (control_write 15 0) eq_refl).
    apply bind_raise, Hsend.
  - unfold init. apply bind_raise, Hshut.
  - exact Hmode.
  - intros feedrate Hf. unfold set_feedrate.
    evaluated (to_bytes_val feedrate 4 Hf).
    evaluated (word_write_frame 96 146 1 feedrate _
                 eq_refl eq_refl eq_refl eq_refl).
    apply bind_raise, Hsend.
  - intros method fv zv acc. unfold set_homing.
    apply bind_raise, Hmode. reflexivity.
  - intros v a tp. unfold move. apply bind_raise, Hmode. reflexivity.
  - intros v a sp it sw wt gb. unfold staggered_move.
    apply bind_raise, Hmode. reflexivity.
  - unfold get_status.
    rewrite (bind_lift _ _ _ (register_query [96; 100]) eq_refl).
    apply bind_raise, Hsend.
Qed.

Lemma offline_driver_raises_at_once_witness :
  init 5 blank = Raise AttributeError blank
  /\ move 5 1000 500 200000 blank = Raise AttributeError blank.
Proof.
  destruct (offline_driver_raises_at_once 5 blank AttributeError eq_refl)
    as (_ & _ & _ & Hinit & _ & _ & _ & Hmove & _).
  split; [exact Hinit | apply Hmove].
Defined.

(** X20: [close] talks to no one: it sends no frame - no shutdown, no
    change of the control word - and only gives up the socket.  Without a
    socket it raises [AttributeError]; otherwise it returns None with the
    trace as it was, and from then on every [send_command] raises the
    socket's error without sending. *)
Theorem close_sends_nothing (w : world) :
  (sock w = None -> close w = Raise AttributeError w)
  /\ (forall s, sock w = Some s ->
        exists w' : world,
          close w = Ret VNone w'
          /\ trace w' = trace w
          /\ forall data, send_command data w' = Raise OSError w').
Proof.
  unfold close, socket_close, get_sock, bind, ret. split.
  - intros ->. reflexivity.
  - intros s ->. eexists. split; [reflexivity |]. split; [reflexivity |].
    intros data. now apply send_command_offline.
Qed.

Lemma close_sends_nothing_witness :
  exists w' : world,
    close (device [status_reply 39 6]) = Ret VNone w'
    /\ trace w' = []
    /\ forall data, send_command data w' = Raise OSError w'.
Proof.
  exact (proj2 (close_sends_nothing (device [status_reply 39 6])) _ eq_refl).
Defined.

(** X21: replies are not framed.  When the device's answer to a frame is
    longer than the 24 bytes of one [recv] (and at most 48), the first
    [send_command] returns its first 24 bytes and the next [send_command]
    returns the remainder as if it were the answer to its own frame. *)
Theorem long_reply_spills_over (f1 f2 bs : list Z) (rest : list rx_event)
  (t : list action) :
  (24 < List.length bs <= 48)%nat ->
  (r1 <- send_command f1 ;; r2 <- send_command f2 ;; ret (r1, r2))
    (online (Data bs :: rest) t) =
  Ret (firstn 24 bs, skipn 24 bs) (online rest (t ++ [Sent f1; Sent f2])).
Proof.
  intros Hlen.
  assert (E1 : send_command f1 (online (Data bs :: rest) t) =
               Ret (firstn 24 bs)
                 (online (Data (skipn 24 bs) :: rest) (t ++ [Sent f1]))).
  { rewrite send_command_cases. cbn [sock online connected stream negb].
    replace (List.length bs <=? 24)%nat with false
      by (symmetry; apply Nat.leb_gt; lia).
    reflexivity. }
  rewrite (bind_ret _ _ _ _ _ E1).
  rewrite (bind_ret _ _ _ _ _
             (send_command_reply f2 (skipn 24 bs) rest _
                ltac:(rewrite length_skipn; lia))).
  unfold ret. now rewrite <- app_assoc.
Qed.

Lemma long_reply_spills_over_witness :
  (r1 <- send_command (register_query [96; 100]) ;;
   r2 <- send_command (register_query [96; 108]) ;;
   ret (r1, r2))
    (online [Data (register_reply [96; 100] 200000 ++ [0; 0; 0])] []) =
  Ret (firstn 24 (register_reply [96; 100] 200000 ++ [0; 0; 0]), [0; 0])
    (online []
       [Sent (register_query [96; 100]); Sent (register_query [96; 108])]).
Proof.
  apply (long_reply_spills_over (register_query [96; 100])
           (register_query [96; 108])
           (register_reply [96; 100] 200000 ++ [0; 0; 0]) [] []).
  simpl. lia.
Defined.

(** * The placeholder in the payload *)

Lemma supplied_idempotent (td : list Z) : supplied (supplied td) = supplied td.
Proof.
  unfold supplied. induction td as [| x td IH]; [reflexivity |].
  cbn [filter]. destruct (negb (x =? -1)) eqn:E; [| exact IH].
  cbn [filter]. now rewrite E, IH.
Qed.

(** X22: the value -1 is the builder's placeholder and can never be sent:
    every payload entry equal to -1 is dropped without notice, wherever it
    stands, so a call builds the same frame as the call without those
    entries.  Any other entry outside 0..255 makes the builder raise
    [ValueError]. *)
Theorem payload_placeholder_is_dropped
  (rw : Z) (oi : list Z) (si dl : Z) (td : list Z) :
  make_bytearray rw oi si dl td = make_bytearray rw oi si dl (supplied td)
  /\ forall x, In x td -> x <> -1 -> ~ 0 <= x < 256 ->
       make_bytearray rw oi si dl td = Exc ValueError.
Proof.
  split.
  - now rewrite !make_bytearray_spec, supplied_idempotent.
  - intros x Hin Hne Hout. rewrite make_bytearray_spec.
    assert (Hs : In x (supplied td)).
    { unfold supplied. apply filter_In. split; [exact Hin |].
      apply negb_true_iff, Z.eqb_neq, Hne. }
    unfold accepted.
    destruct (forallb is_byte (supplied td)) eqn:E.
    + exfalso. apply Hout.
      pose proof (forallb_is_byte _ E) as Hall.
      rewrite Forall_forall in Hall. now apply Hall.
    + now rewrite !andb_false_r.
Qed.

Lemma payload_placeholder_is_dropped_witness :
  make_bytearray 1 [96; 96] 0 1 [-1] = Val (frame_bytes WRITE [96; 96] 0 1 [])
  /\ make_bytearray 1 [96; 96] 0 1 [-2] = Exc ValueError.
Proof.
  split.
  - rewrite (proj1 (payload_placeholder_is_dropped 1 [96; 96] 0 1 [-1])).
    reflexivity.
  - apply (proj2 (payload_placeholder_is_dropped 1 [96; 96] 0 1 [-2]) (-2)).
    + simpl; tauto.
    + lia.
    + lia.
Defined.
